(** * PWD Assistant client script: a shallow embedding of [static/js/script.js]

    The script is DOM glue: two search handlers that render a placeholder
    into a result region, and a chatbot widget with a keyword table.  The
    embedding keeps the shape of the JavaScript:

    - strings are [string]s whose characters stand for UTF-16 code units in
      the range 0..255; on that range [trim] and [toLowerCase] below are the
      ECMAScript functions;
    - the document is a finite map from element ids to elements, and
      [getElementById] is a lookup that yields [null] for an absent id;
    - handlers run in a state-and-exception monad over the page state
      ([World]): property access on [null] throws [TypeError], [alert] and
      [setTimeout] are recorded in the state;
    - every element has its own value, style and content; how the elements
      the script looks up are nested in the page is not part of the model;
    - a pending timer may elapse at any later point of the run, the oldest
      first: the 1000 ms are kept in the timer, the clock is not modelled. *)

From Stdlib Require Import String Ascii Bool NArith List.
From stdpp Require Import base option gmap strings list.
Import ListNotations.
Local Open Scope string_scope.

(** ** Strings *)

Module JSString.

(** The double quote character, for the markup literals of the script. *)
Definition dq : string := String (ascii_of_nat 34) EmptyString.

(** ECMAScript [WhiteSpace] and [LineTerminator] code units below 256:
    TAB, LF, VT, FF, CR, SP and NBSP. *)
Definition isWhiteSpace (c : ascii) : bool :=
  let n := N_of_ascii c in
  ((9 <=? n) && (n <=? 13) || (n =? 32) || (n =? 160))%N.

Fixpoint trimStart (s : string) : string :=
  match s with
  | EmptyString => EmptyString
  | String c s' => if isWhiteSpace c then trimStart s' else s
  end.

Fixpoint trimEnd (s : string) : string :=
  match s with
  | EmptyString => EmptyString
  | String c s' =>
      match trimEnd s' with
      | EmptyString => if isWhiteSpace c then EmptyString else String c EmptyString
      | t => String c t
      end
  end.

(** [String.prototype.trim] *)
Definition trim (s : string) : string := trimEnd (trimStart s).

(** A string made of white space only (the empty string included). *)
Fixpoint whitespaceOnly (s : string) : bool :=
  match s with
  | EmptyString => true
  | String c s' => isWhiteSpace c && whitespaceOnly s'
  end.

(** Lower-casing of one code unit below 256: [A-Z] and the Latin-1
    capitals U+00C0..U+00DE (U+00D7, the multiplication sign, apart). *)
Definition lowerChar (c : ascii) : ascii :=
  let n := N_of_ascii c in
  if ((65 <=? n) && (n <=? 90)
      || (192 <=? n) && (n <=? 222) && negb (n =? 215))%N
  then ascii_of_N (n + 32) else c.

(** [String.prototype.toLowerCase] *)
Fixpoint toLowerCase (s : string) : string :=
  match s with
  | EmptyString => EmptyString
  | String c s' => String (lowerChar c) (toLowerCase s')
  end.

(** [String.prototype.startsWith], used to define [includes]. *)
Fixpoint startsWith (s p : string) : bool :=
  match p, s with
  | EmptyString, _ => true
  | String _ _, EmptyString => false
  | String a p', String b s' => Ascii.eqb a b && startsWith s' p'
  end.

(** [String.prototype.includes]: [p] occurs in [s] at some position. *)
Fixpoint includes (s p : string) : bool :=
  startsWith s p ||
  match s with
  | EmptyString => false
  | String _ s' => includes s' p
  end.

(** JavaScript truthiness of a string: every string but the empty one. *)
Definition truthy (s : string) : bool :=
  match s with EmptyString => false | String _ _ => true end.

End JSString.
Import JSString.

(** ** The reply table of the chatbot *)

Definition greetingReply : string := "Hello there! How can I assist you today?".
Definition schemeReply : string :=
  "You can find detailed information on government schemes in our "
  ++ dq ++ "Services Hub" ++ dq ++ ".".
Definition helpReply : string :=
  "I am here to help. You can ask me about services, resources, or the community forum.".
Definition thankReply : string :=
  "You're welcome! Is there anything else I can help with?".
Definition fallbackReply : string :=
  "I'm sorry, I'm still learning. Try asking about 'schemes' or 'help'.".

(** [generateBotResponse] (script.js, lines 96-103): the rules are tried in
    the order of the source and the first that matches answers. *)
Definition generateBotResponse (userInput : string) : string :=
  let input := toLowerCase userInput in
  if includes input "hello" || includes input "hi" then greetingReply
  else if includes input "scheme" || includes input "pension" then schemeReply
  else if includes input "help" || includes input "support" then helpReply
  else if includes input "thank" then thankReply
  else fallbackReply.

(** ** The page state *)

(** What an element contains: the nodes parsed from an [innerHTML]
    assignment (kept as the assigned markup), or a [div] built with
    [createElement] and filled before it is appended. *)
Inductive Node :=
  | Markup (html : string)
  | Div (className innerHTML : string).

Record Element := mkElement {
  value : string;            (* [.value] of a form control *)
  display : string;          (* [.style.display] *)
  childNodes : list Node;    (* the content of the element *)
  scrollTop : N              (* [.scrollTop] *)
}.

Definition setValue (v : string) (e : Element) : Element :=
  mkElement v (display e) (childNodes e) (scrollTop e).
Definition setDisplay (d : string) (e : Element) : Element :=
  mkElement (value e) d (childNodes e) (scrollTop e).
(** Assigning [innerHTML] replaces the whole content. *)
Definition setInnerHTML (html : string) (e : Element) : Element :=
  mkElement (value e) (display e) [Markup html] (scrollTop e).
Definition appendChild (n : Node) (e : Element) : Element :=
  mkElement (value e) (display e) (childNodes e ++ [n]) (scrollTop e).
Definition setScrollTop (y : N) (e : Element) : Element :=
  mkElement (value e) (display e) (childNodes e) y.

(** A JavaScript reference to an element: [null], or the element of the
    document that carries the given id. *)
Inductive Ref := null | handle (id : string).

Definition isElement (r : Ref) : bool :=
  match r with null => false | handle _ => true end.

(** The element references the [DOMContentLoaded] callback stores in its
    constants; the listeners and the timer callback close over them. *)
Record Chatbot := mkChatbot {
  openChatbotBtn : Ref;
  chatbotContainer : Ref;
  closeChatbotBtn : Ref;
  chatForm : Ref;
  chatInputField : Ref;
  chatBody : Ref
}.

Inductive EventType := click | submit.

(** The three arrow functions given to [addEventListener]. *)
Inductive Handler :=
  | OpenClick (env : Chatbot)
  | CloseClick (env : Chatbot)
  | ChatSubmit (env : Chatbot).

Record Listener := mkListener {
  target : string;
  eventType : EventType;
  handler : Handler
}.

(** The arrow function given to [setTimeout], with the message it captured. *)
Inductive TimerTask := BotReply (env : Chatbot) (userMessage : string).

Record Timer := mkTimer { task : TimerTask; delay : N }.

Record World := mkWorld {
  document : gmap string Element;
  listeners : list Listener;    (* in registration order *)
  timers : list Timer;          (* pending callbacks, oldest first *)
  alerts : list string;         (* dialogs shown by [alert], oldest first *)
  scrolledIntoView : list string  (* elements [scrollIntoView] was called on *)
}.

Definition withDocument (f : gmap string Element -> gmap string Element) (w : World) : World :=
  mkWorld (f (document w)) (listeners w) (timers w) (alerts w) (scrolledIntoView w).

(** ** The monad of handlers: state and exceptions *)

Inductive Exn := TypeError.

Inductive Completion (A : Type) :=
  | Normal (a : A)
  | Throw (e : Exn).
Arguments Normal {A} a.
Arguments Throw {A} e.

Definition JS (A : Type) : Type := World -> World * Completion A.

Definition ret {A} (a : A) : JS A := fun w => (w, Normal a).

Definition bind {A B} (m : JS A) (k : A -> JS B) : JS B :=
  fun w =>
    match m w with
    | (w', Normal a) => k a w'
    | (w', Throw e) => (w', Throw e)
    end.

Definition throw {A} (e : Exn) : JS A := fun w => (w, Throw e).

Declare Scope js_scope.
Delimit Scope js_scope with js.
Notation "x <- m ;; k" := (bind m (fun x => k))
  (at level 100, m at next level, right associativity) : js_scope.
Notation "m ;; k" := (bind m (fun _ => k))
  (at level 100, right associativity) : js_scope.
Local Open Scope js_scope.

(** [document.getElementById]: [null] when no element carries the id. *)
Definition getElementById (id : string) : JS Ref :=
  fun w =>
    match document w !! id with
    | Some _ => (w, Normal (handle id))
    | None => (w, Normal null)
    end.

(** Reading a property through a reference; reading through [null] is a
    [TypeError]. *)
Definition getProp {A} (r : Ref) (prop : Element -> A) : JS A :=
  fun w =>
    match r with
    | null => (w, Throw TypeError)
    | handle id =>
        match document w !! id with
        | Some e => (w, Normal (prop e))
        | None => (w, Throw TypeError)
        end
    end.

(** Writing through a reference. *)
Definition update (r : Ref) (f : Element -> Element) : JS unit :=
  fun w =>
    match r with
    | null => (w, Throw TypeError)
    | handle id =>
        match document w !! id with
        | Some e => (withDocument (insert id (f e)) w, Normal tt)
        | None => (w, Throw TypeError)
        end
    end.

Definition alert (message : string) : JS unit :=
  fun w =>
    (mkWorld (document w) (listeners w) (timers w) (alerts w ++ [message])
       (scrolledIntoView w), Normal tt).

Definition setTimeout (t : TimerTask) (ms : N) : JS unit :=
  fun w =>
    (mkWorld (document w) (listeners w) (timers w ++ [mkTimer t ms]) (alerts w)
       (scrolledIntoView w), Normal tt).

Definition addEventListener (r : Ref) (ev : EventType) (h : Handler) : JS unit :=
  fun w =>
    match r with
    | null => (w, Throw TypeError)
    | handle id =>
        (mkWorld (document w) (listeners w ++ [mkListener id ev h]) (timers w)
           (alerts w) (scrolledIntoView w), Normal tt)
    end.

Definition scrollIntoView (r : Ref) : JS unit :=
  fun w =>
    match r with
    | null => (w, Throw TypeError)
    | handle id =>
        (mkWorld (document w) (listeners w) (timers w) (alerts w)
           (scrolledIntoView w ++ [id]), Normal tt)
    end.

(** [event.preventDefault()] stops the browser from navigating away on a
    form submission; it touches nothing of the page state kept here. *)
Definition preventDefault : JS unit := ret tt.

(** [if (c) { body }] *)
Definition when (c : bool) (body : JS unit) : JS unit :=
  if c then body else ret tt.

(** ** Services Hub: [searchResources] *)

Definition errorCard : string :=
  "<div class=" ++ dq ++ "card" ++ dq ++ " style=" ++ dq
  ++ "text-align: center; color: #c62828; background-color: #ffebee; padding: 20px;"
  ++ dq ++ "><strong>Please complete all fields to perform a search.</strong></div>".

Definition resultHeader (headerText : string) : string :=
  "<div class=" ++ dq ++ "result-header" ++ dq ++ "><h2>" ++ headerText ++ "</h2></div>".

(** [searchResources] (script.js, lines 10-30).  The two field values are
    read before anything is tested; the early [return] of the error branch
    is the [then] branch here. *)
Definition searchResources : JS unit :=
  domainEl <- getElementById "domain" ;;
  domain <- getProp domainEl value ;;
  locationEl <- getElementById "location" ;;
  locationValue <- getProp locationEl value ;;
  let location := trim locationValue in
  resultDiv <- getElementById "planResult" ;;
  if negb (truthy domain) || negb (truthy location) then
    when (isElement resultDiv)
      (update resultDiv (setInnerHTML errorCard) ;;
       update resultDiv (setDisplay "block"))
  else
    let headerText := "Displaying mock results for " ++ domain ++ " in " ++ location in
    when (isElement resultDiv)
      (update resultDiv (setInnerHTML (resultHeader headerText)) ;;
       update resultDiv (setDisplay "block") ;;
       scrollIntoView resultDiv).

(** ** Video Guide: [searchVideos] *)

Definition videoPlaceholder (searchTerm : string) : string :=
  "<p style=" ++ dq ++ "text-align:center; padding: 20px;" ++ dq
  ++ ">Showing mock video results for " ++ dq ++ searchTerm ++ dq ++ "...</p>".

(** [searchVideos] (script.js, lines 34-47).  [query] is [None] when the
    function is called without an argument; [query || ...] takes the field
    when the query is absent or the empty string. *)
Definition searchVideos (query : option string) : JS unit :=
  searchInput <- getElementById "searchInput" ;;
  videoContainer <- getElementById "videoContainer" ;;
  let fromField : JS string :=
    if isElement searchInput
    then (v <- getProp searchInput value ;; ret (trim v))
    else ret "" in
  searchTerm <- match query with
                | Some q => if truthy q then ret q else fromField
                | None => fromField
                end ;;
  if negb (truthy searchTerm) then alert "Please enter a search topic."
  else
    when (isElement videoContainer)
      (update videoContainer (setInnerHTML (videoPlaceholder searchTerm))).

(** ** Chatbot *)

#[global] Instance EventType_eq_dec : EqDecision EventType.
Proof. solve_decision. Defined.

Section Chatbot.

(** Layout is the browser's: [scrollHeight] of an element is whatever the
    rendering engine computes for its current content. *)
Variable scrollHeight : Element -> N.

(** [addMessageToChat] (script.js, lines 87-94). *)
Definition addMessageToChat (env : Chatbot) (sender message : string) : JS unit :=
  if negb (isElement (chatBody env)) then ret tt
  else
    let messageWrapper :=
      Div ("chat-message " ++ sender ++ "-message") ("<p>" ++ message ++ "</p>") in
    update (chatBody env) (appendChild messageWrapper) ;;
    h <- getProp (chatBody env) scrollHeight ;;
    update (chatBody env) (setScrollTop h).

(** The body of the [setTimeout] callback (script.js, lines 79-82). *)
Definition runTimerTask (t : TimerTask) : JS unit :=
  match t with
  | BotReply env userMessage =>
      let botResponse := generateBotResponse userMessage in
      addMessageToChat env "bot" botResponse
  end.

(** The bodies of the three listeners (script.js, lines 65-84). *)
Definition runHandler (h : Handler) : JS unit :=
  match h with
  | OpenClick env => update (chatbotContainer env) (setDisplay "flex")
  | CloseClick env => update (chatbotContainer env) (setDisplay "none")
  | ChatSubmit env =>
      preventDefault ;;
      v <- getProp (chatInputField env) value ;;
      let userMessage := trim v in
      when (truthy userMessage)
        (addMessageToChat env "user" userMessage ;;
         update (chatInputField env) (setValue "") ;;
         setTimeout (BotReply env userMessage) 1000)
  end.

(** The callback of [document.addEventListener('DOMContentLoaded', ...)]
    (script.js, lines 52-85): six lookups, then the guard on four of them. *)
Definition onDOMContentLoaded : JS unit :=
  openChatbotBtn <- getElementById "open-chatbot-btn" ;;
  chatbotContainer <- getElementById "chatbot-container" ;;
  closeChatbotBtn <- getElementById "close-chatbot-btn" ;;
  chatForm <- getElementById "chat-form" ;;
  chatInputField <- getElementById "chat-input-field" ;;
  chatBody <- getElementById "chat-body" ;;
  let env := mkChatbot openChatbotBtn chatbotContainer closeChatbotBtn chatForm
               chatInputField chatBody in
  when (isElement openChatbotBtn && isElement chatbotContainer
        && isElement closeChatbotBtn && isElement chatForm)
    (addEventListener openChatbotBtn click (OpenClick env) ;;
     addEventListener closeChatbotBtn click (CloseClick env) ;;
     addEventListener chatForm submit (ChatSubmit env)).

(** ** The event loop *)

(** The browser calls the listeners of an event one after the other; an
    exception that escapes one of them is reported and the next one still
    runs.  The completion of the whole is the first exception, if any. *)
Definition thenAlso (m k : JS unit) : JS unit :=
  fun w =>
    match m w with
    | (w', Normal _) => k w'
    | (w', Throw e) => (fst (k w'), Throw e)
    end.

Fixpoint runListeners (ls : list Listener) (id : string) (ev : EventType) : JS unit :=
  match ls with
  | [] => ret tt
  | l :: ls' =>
      thenAlso
        (when (bool_decide (target l = id) && bool_decide (eventType l = ev))
           (runHandler (handler l)))
        (runListeners ls' id ev)
  end.

Definition dispatchEvent (id : string) (ev : EventType) : JS unit :=
  fun w => runListeners (listeners w) id ev w.

(** What can happen to the page: the document finishes loading, an
    [onclick] attribute calls a search function, the user edits a form
    control or triggers an event on an element, the oldest pending timer
    elapses (all delays are equal, so timers elapse in scheduling order). *)
Inductive Action :=
  | DOMContentLoaded
  | CallSearchResources
  | CallSearchVideos (query : option string)
  | UserEdits (id text : string)
  | UserEvent (id : string) (ev : EventType)
  | TimerElapses.

Definition perform (a : Action) : JS unit :=
  match a with
  | DOMContentLoaded => onDOMContentLoaded
  | CallSearchResources => searchResources
  | CallSearchVideos query => searchVideos query
  | UserEdits id text =>
      fun w =>
        match document w !! id with
        | Some e => (withDocument (insert id (setValue text e)) w, Normal tt)
        | None => (w, Normal tt)
        end
  | UserEvent id ev =>
      fun w =>
        match document w !! id with
        | Some _ => dispatchEvent id ev w
        | None => (w, Normal tt)
        end
  | TimerElapses =>
      fun w =>
        match timers w with
        | [] => (w, Normal tt)
        | t :: ts =>
            runTimerTask (task t)
              (mkWorld (document w) (listeners w) ts (alerts w) (scrolledIntoView w))
        end
  end.

(** The page state after a run of actions; an exception ends the handler
    it escapes from, not the page. *)
Definition exec (a : Action) (w : World) : World := fst (perform a w).

Definition execAll (acts : list Action) (w : World) : World :=
  fold_left (fun w a => exec a w) acts w.

End Chatbot.

(** The chat transcript: the content of the [chat-body] element. *)
Definition transcript (w : World) : list Node :=
  match document w !! "chat-body" with
  | Some e => childNodes e
  | None => []
  end.

(** A page for examples: every element the script looks up is there. *)
Definition blank : Element := mkElement "" "" [] 0.

Definition fullPage : World :=
  mkWorld
    (list_to_map
       [("domain", blank); ("location", blank); ("planResult", blank);
        ("searchInput", blank); ("videoContainer", blank);
        ("open-chatbot-btn", blank); ("chatbot-container", blank);
        ("close-chatbot-btn", blank); ("chat-form", blank);
        ("chat-input-field", blank); ("chat-body", blank)])
    [] [] [] [].

(** A page with none of the elements. *)
Definition emptyPage : World := mkWorld ∅ [] [] [] [].

(** A layout for examples: every child node is 24 pixels high. *)
Definition rowLayout (e : Element) : N := 24 * N.of_nat (length (childNodes e)).

(** ** Notions used in the statements *)

(** The page after a search that found a field empty. *)
Definition showError (r : Element) : Element :=
  mkElement (value r) "block" [Markup errorCard] (scrollTop r).

(** The page after a search with both fields filled. *)
Definition showHeader (domain location : string) (r : Element) : Element :=
  mkElement (value r) "block"
    [Markup (resultHeader ("Displaying mock results for " ++ domain ++ " in " ++ location))]
    (scrollTop r).

(** The full page with "Pension" selected and "Austin" typed. *)
Definition pensionAustinPage : World :=
  withDocument (insert "domain" (setValue "Pension" blank))
    (withDocument (insert "location" (setValue "Austin" blank)) fullPage).

(** The full page with a domain option whose value is one space. *)
Definition blankDomainPage : World :=
  withDocument (insert "domain" (setValue " " blank))
    (withDocument (insert "location" (setValue "Austin" blank)) fullPage).

(** A transcript entry as [addMessageToChat] builds it. *)
Definition entry (sender message : string) : Node :=
  Div ("chat-message " ++ sender ++ "-message") ("<p>" ++ message ++ "</p>").

(** The transcript region after one more entry, scrolled to its bottom. *)
Definition withEntry (scrollHeight : Element -> N) (n : Node) (e : Element) : Element :=
  setScrollTop (scrollHeight (appendChild n e)) (appendChild n e).

(** The constants of the load callback on a page with the whole widget,
    the message field being the element [id]. *)
Definition chatbotOf (id : string) : Chatbot :=
  mkChatbot (handle "open-chatbot-btn") (handle "chatbot-container")
    (handle "close-chatbot-btn") (handle "chat-form") (handle id) (handle "chat-body").

(** The reference [getElementById] gives for an id on a page. *)
Definition refOf (w : World) (id : string) : Ref :=
  match document w !! id with
  | Some _ => handle id
  | None => null
  end.

(** The constants of the [DOMContentLoaded] callback on a page. *)
Definition captured (w : World) : Chatbot :=
  mkChatbot (refOf w "open-chatbot-btn") (refOf w "chatbot-container")
    (refOf w "close-chatbot-btn") (refOf w "chat-form")
    (refOf w "chat-input-field") (refOf w "chat-body").

(** The three listeners the callback registers. *)
Definition chatbotListeners (env : Chatbot) : list Listener :=
  [ mkListener "open-chatbot-btn" click (OpenClick env);
    mkListener "close-chatbot-btn" click (CloseClick env);
    mkListener "chat-form" submit (ChatSubmit env) ].

(** The guard of the callback. *)
Definition chatbotMarkupPresent (w : World) : bool :=
  isElement (refOf w "open-chatbot-btn") && isElement (refOf w "chatbot-container")
  && isElement (refOf w "close-chatbot-btn") && isElement (refOf w "chat-form").

Inductive Toggle := Open | Close.

(** The user clicks the open button or the close button. *)
Definition toggleAction (t : Toggle) : Action :=
  match t with
  | Open => UserEvent "open-chatbot-btn" click
  | Close => UserEvent "close-chatbot-btn" click
  end.

Definition displayAfter (t : Toggle) : string :=
  match t with Open => "flex" | Close => "none" end.

(** The [display] of the container after a run of clicks. *)
Definition finalDisplay (ts : list Toggle) (initial : string) : string :=
  fold_left (fun _ t => displayAfter t) ts initial.

(** An entry of the chat: a message block of the user or of the bot. *)
Definition chatEntry (n : Node) : Prop :=
  exists sender message, (sender = "user" \/ sender = "bot") /\ n = entry sender message.

(** [l'] is [l] followed by new chat entries: nothing of [l] is removed,
    moved or edited. *)
Definition grows (l l' : list Node) : Prop :=
  exists suffix, l' = (l ++ suffix)%list /\ Forall chatEntry suffix.

(** A computation that only appends chat entries to the transcript, and
    whose result, when it returns one, satisfies [Q]. *)
Definition AppendOnly {A} (Q : A -> Prop) (m : JS A) : Prop :=
  forall w,
    grows (transcript w) (transcript (fst (m w)))
    /\ forall a, snd (m w) = Normal a -> Q a.

(** No condition on the result. *)
Definition anything {A} (_ : A) : Prop := True.

(** A handler that silently skips everything: it returns normally and the
    page state (document, alerts, timers, listeners) is what it was. *)
Definition silentlySkips (m : JS unit) (w : World) : Prop :=
  m w = (w, Normal tt).

(** The search term [searchVideos] settles on: the query when it is a
    non-empty string, else the trimmed value of the search field, else the
    empty string. *)
Definition fieldTerm (w : World) : string :=
  match document w !! "searchInput" with
  | Some e => trim (value e)
  | None => ""
  end.

Definition effectiveTerm (query : option string) (w : World) : string :=
  match query with
  | Some q => if truthy q then q else fieldTerm w
  | None => fieldTerm w
  end.

(** A page with form fields only: no result region, no video container and
    no chatbot markup. *)
Definition fieldOnlyPage : World :=
  mkWorld (list_to_map [("domain", blank); ("location", blank); ("searchInput", blank)])
    [] [] [] [].

(** The capital of a small letter, where it is a code unit below 256: [a-z]
    and the Latin-1 small letters U+00E0..U+00FE (U+00F7, the division sign,
    apart); every other code unit is left as it is. *)
Definition upperChar (c : ascii) : ascii :=
  let n := N_of_ascii c in
  if ((97 <=? n) && (n <=? 122)
      || (224 <=? n) && (n <=? 254) && negb (n =? 247))%N
  then ascii_of_N (n - 32) else c.

(** Two strings that differ at most in the case of their letters: at every
    position the two code units are equal, or one is the capital of the
    other. *)
Fixpoint sameUpToCase (a b : string) : bool :=
  match a, b with
  | EmptyString, EmptyString => true
  | String x a', String y b' =>
      (Ascii.eqb x y || Ascii.eqb (upperChar x) y || Ascii.eqb x (upperChar y))
      && sameUpToCase a' b'
  | _, _ => false
  end.

(** The keywords of the reply table, in the order of the rules. *)
Definition keywords : list string :=
  ["hello"; "hi"; "scheme"; "pension"; "help"; "support"; "thank"].

(** The constants of the load callback on a page with the whole widget. *)
Definition widgetEnv : Chatbot := chatbotOf "chat-input-field".

(** A page that has the six elements of the widget and on which the load
    callback has run once. *)
Definition Wired (w : World) : Prop :=
  listeners w = chatbotListeners widgetEnv
  /\ is_Some (document w !! "open-chatbot-btn")
  /\ is_Some (document w !! "chatbot-container")
  /\ is_Some (document w !! "close-chatbot-btn")
  /\ is_Some (document w !! "chat-form")
  /\ is_Some (document w !! "chat-input-field")
  /\ is_Some (document w !! "chat-body").

(** The user types a message and submits the form, for each message. *)
Definition sendAll (messages : list string) : list Action :=
  flat_map (fun m => [UserEdits "chat-input-field" m; UserEvent "chat-form" submit])
    messages.

(** The timer a submission of [message] leaves pending. *)
Definition replyTimer (message : string) : Timer :=
  mkTimer (BotReply widgetEnv (trim message)) 1000.

(** The test of [searchResources] on the two values it read. *)
Definition incomplete (d l : Element) : bool :=
  negb (truthy (value d)) || negb (truthy (trim (value l))).

(** A page with the four elements the load callback tests, and neither the
    message field nor the transcript region. *)
Definition halfWidgetPage : World :=
  mkWorld
    (list_to_map
       [("open-chatbot-btn", blank); ("chatbot-container", blank);
        ("close-chatbot-btn", blank); ("chat-form", blank)])
    [] [] [] [].

(** A page with the chatbot markup but no transcript region; "hello" is
    typed in the message field. *)
Definition noTranscriptPage : World :=
  mkWorld
    (list_to_map
       [("open-chatbot-btn", blank); ("chatbot-container", blank);
        ("close-chatbot-btn", blank); ("chat-form", blank);
        ("chat-input-field", mkElement "hello" "" [] 0)])
    [] [] [] [].

(** The full page after the load callback. *)
Definition wiredPage : World :=
  mkWorld (document fullPage) (chatbotListeners widgetEnv) [] [] [].

(** ** Facts about the string functions *)

Lemma trimStart_whitespaceOnly (s : string) :
  whitespaceOnly s = true -> trimStart s = "".
Proof.
  induction s as [|c s IH]; simpl; [reflexivity|].
  intros [Hc Hs]%andb_true_iff. rewrite Hc. auto.
Qed.

Lemma whitespaceOnly_trim (s : string) :
  whitespaceOnly s = true -> trim s = "".
Proof. intros H. unfold trim. rewrite trimStart_whitespaceOnly; auto. Qed.

Lemma trimEnd_empty (s : string) :
  trimEnd s = "" -> whitespaceOnly s = true.
Proof.
  induction s as [|c s IH]; simpl; [reflexivity|].
  destruct (trimEnd s) eqn:E; [|discriminate].
  destruct (isWhiteSpace c); [|discriminate]. auto.
Qed.

Lemma trimStart_empty (s : string) :
  whitespaceOnly (trimStart s) = true -> whitespaceOnly s = true.
Proof.
  induction s as [|c s IH]; simpl; [reflexivity|].
  destruct (isWhiteSpace c) eqn:E; simpl; [auto|].
  rewrite E. discriminate.
Qed.

(** [trim] yields the empty string exactly on white-space-only strings. *)
Lemma trim_empty_iff (s : string) :
  trim s = "" <-> whitespaceOnly s = true.
Proof.
  split; [|apply whitespaceOnly_trim].
  intros H. apply trimStart_empty, trimEnd_empty, H.
Qed.

Lemma truthy_false_iff (s : string) : truthy s = false <-> s = "".
Proof. destruct s; simpl; split; congruence. Qed.

Lemma truthy_true_iff (s : string) : truthy s = true <-> s <> "".
Proof. destruct s; simpl; split; congruence. Qed.

Lemma startsWith_spec (s p : string) :
  startsWith s p = true <-> exists b, s = p ++ b.
Proof.
  revert s. induction p as [|a p IH]; intros s.
  - destruct s; simpl; split; eauto.
  - destruct s as [|c s].
    + split; [discriminate|]. intros [b Hb]. discriminate.
    + change (startsWith (String c s) (String a p))
        with (Ascii.eqb a c && startsWith s p).
      rewrite andb_true_iff, IH. split.
      * intros [->%Ascii.eqb_eq [b ->]]. eauto.
      * intros [b Hb]. injection Hb as -> ->. split; eauto using Ascii.eqb_refl.
Qed.

(** [includes] is the substring test: [p] sits between some [a] and [b]. *)
Lemma includes_spec (s p : string) :
  includes s p = true <-> exists a b, s = a ++ p ++ b.
Proof.
  induction s as [|c s IH].
  - cbn [includes]. rewrite orb_false_r, startsWith_spec. split.
    + intros [b Hb]. exists "", b. exact Hb.
    + intros [a [b Hab]]. destruct a; [eauto|discriminate].
  - cbn [includes]. rewrite orb_true_iff, startsWith_spec, IH. split.
    + intros [[b Hb]|[a [b Hab]]].
      * exists "", b. exact Hb.
      * exists (String c a), b. rewrite Hab. reflexivity.
    + intros [a [b Hab]]. destruct a as [|c' a].
      * left. eauto.
      * right. simpl in Hab. injection Hab as -> ->. eauto.
Qed.

(** ** The reply table *)

(** C2: the message "I need help with my pension" gets the scheme-info
    reply of the second rule, not the help reply of the third: the rules are
    tried in order and the first that matches wins. *)
Theorem C2_pension_before_help :
  generateBotResponse "I need help with my pension" = schemeReply
  /\ includes (toLowerCase "I need help with my pension") "help" = true
  /\ schemeReply <> helpReply.
Proof. split; [reflexivity|]. split; [reflexivity|discriminate]. Qed.

(** C3: every input whose lower-cased text has "hi" as a substring gets the
    greeting reply, whatever keywords of later rules it also holds. *)
Theorem C3_hi_substring_greets (userInput : string) :
  (exists a b, toLowerCase userInput = a ++ "hi" ++ b) ->
  generateBotResponse userInput = greetingReply.
Proof.
  intros H%includes_spec. unfold generateBotResponse.
  rewrite H, orb_true_r. reflexivity.
Qed.

Lemma C3_hi_substring_greets_witness :
  generateBotResponse "A hint about pension support, thanks" = greetingReply.
Proof.
  apply C3_hi_substring_greets.
  exists "a ", "nt about pension support, thanks". reflexivity.
Defined.

(** ** Running the primitives *)

Lemma getElementById_present (w : World) (id : string) (e : Element) :
  document w !! id = Some e -> getElementById id w = (w, Normal (handle id)).
Proof. intros H. unfold getElementById. rewrite H. reflexivity. Qed.

Lemma getElementById_absent (w : World) (id : string) :
  document w !! id = None -> getElementById id w = (w, Normal null).
Proof. intros H. unfold getElementById. rewrite H. reflexivity. Qed.

Lemma getElementById_refOf (w : World) (id : string) :
  getElementById id w = (w, Normal (refOf w id)).
Proof. unfold getElementById, refOf. destruct (document w !! id); reflexivity. Qed.

Lemma getProp_present {A} (w : World) (id : string) (e : Element) (prop : Element -> A) :
  document w !! id = Some e -> getProp (handle id) prop w = (w, Normal (prop e)).
Proof. intros H. unfold getProp. rewrite H. reflexivity. Qed.

Lemma update_present (w : World) (id : string) (e : Element) (f : Element -> Element) :
  document w !! id = Some e ->
  update (handle id) f w = (withDocument (insert id (f e)) w, Normal tt).
Proof. intros H. unfold update. rewrite H. reflexivity. Qed.

Lemma bind_normal {A B} (m : JS A) (k : A -> JS B) (w w' : World) (a : A) :
  m w = (w', Normal a) -> bind m k w = k a w'.
Proof. intros H. unfold bind. rewrite H. reflexivity. Qed.

Lemma bind_throw {A B} (m : JS A) (k : A -> JS B) (w w' : World) (e : Exn) :
  m w = (w', Throw e) -> bind m k w = (w', Throw e).
Proof. intros H. unfold bind. rewrite H. reflexivity. Qed.

Lemma document_withDocument (f : gmap string Element -> gmap string Element) (w : World) :
  document (withDocument f w) = f (document w).
Proof. reflexivity. Qed.

Lemma withDocument_insert_twice (w : World) (id : string) (e1 e2 : Element) :
  withDocument (insert id e2) (withDocument (insert id e1) w)
  = withDocument (insert id e2) w.
Proof.
  unfold withDocument. simpl. rewrite insert_insert_eq. reflexivity.
Qed.

Lemma withDocument_insert_same (w : World) (id : string) (e : Element) :
  document w !! id = Some e -> withDocument (insert id e) w = w.
Proof.
  intros H. destruct w. unfold withDocument. simpl in *.
  rewrite insert_id; auto.
Qed.

(** One step of symbolic execution of a handler whose lookups are known. *)
Ltac js_step :=
  first
    [ erewrite bind_normal by (first
        [ eapply getElementById_present; eassumption
        | eapply getElementById_absent; eassumption
        | eapply getProp_present; eassumption
        | eapply update_present;
            first [ eassumption | rewrite document_withDocument; apply lookup_insert_eq ] ])
    | erewrite update_present
        by first [ eassumption | rewrite document_withDocument; apply lookup_insert_eq ] ].

(** ** Services Hub *)

Lemma searchResources_incomplete (w : World) (d l r : Element) :
  document w !! "domain" = Some d ->
  document w !! "location" = Some l ->
  document w !! "planResult" = Some r ->
  value d = "" \/ trim (value l) = "" ->
  searchResources w = (withDocument (insert "planResult" (showError r)) w, Normal tt).
Proof.
  intros Hd Hl Hr Hempty. unfold searchResources.
  do 5 js_step.
  assert (negb (truthy (value d)) || negb (truthy (trim (value l))) = true) as ->.
  { destruct Hempty as [-> | ->]; simpl; auto using orb_true_r. }
  unfold when, isElement. cbv beta iota.
  js_step. js_step. rewrite withDocument_insert_twice. reflexivity.
Qed.

Lemma searchResources_complete (w : World) (d l r : Element) :
  document w !! "domain" = Some d ->
  document w !! "location" = Some l ->
  document w !! "planResult" = Some r ->
  value d <> "" ->
  trim (value l) <> "" ->
  searchResources w =
    (mkWorld (<["planResult" := showHeader (value d) (trim (value l)) r]> (document w))
       (listeners w) (timers w) (alerts w) (scrolledIntoView w ++ ["planResult"]),
     Normal tt).
Proof.
  intros Hd Hl Hr Hdom Hloc. unfold searchResources.
  do 5 js_step.
  apply truthy_true_iff in Hdom, Hloc. rewrite Hdom, Hloc.
  unfold when, isElement, negb, orb. cbv beta iota.
  js_step. js_step. rewrite withDocument_insert_twice. reflexivity.
Qed.

Lemma errorCard_not_header (headerText : string) :
  errorCard <> resultHeader headerText.
Proof. unfold errorCard, resultHeader. simpl. discriminate. Qed.



(** C6: for the domain "Pension" and the location "Austin", the result
    region is set to markup that contains the text "Displaying mock results
    for Pension in Austin"; whatever the two values are, they go into the
    markup as they are, nothing is escaped. *)
Theorem C6_pension_in_austin (w : World) (d l r : Element) :
  document w !! "domain" = Some d ->
  document w !! "location" = Some l ->
  document w !! "planResult" = Some r ->
  value d <> "" ->
  trim (value l) <> "" ->
  document (fst (searchResources w)) !! "planResult"
    = Some (showHeader (value d) (trim (value l)) r)
  /\ childNodes (showHeader (value d) (trim (value l)) r)
     = [Markup ("<div class=" ++ dq ++ "result-header" ++ dq ++ "><h2>"
                ++ ("Displaying mock results for " ++ value d ++ " in "
                    ++ trim (value l))
                ++ "</h2></div>")]
  /\ (value d = "Pension" -> value l = "Austin" ->
      exists html,
        childNodes (showHeader (value d) (trim (value l)) r) = [Markup html]
        /\ includes html "Displaying mock results for Pension in Austin" = true).
Proof.
  intros Hd Hl Hr Hdom Hloc.
  rewrite (searchResources_complete w d l r) by assumption.
  split; [apply lookup_insert_eq|]. split; [reflexivity|].
  intros -> ->. eexists. split; [reflexivity|]. vm_compute. reflexivity.
Qed.

Lemma C6_pension_in_austin_witness :
  exists html,
    childNodes (showHeader "Pension" "Austin" blank) = [Markup html]
    /\ includes html "Displaying mock results for Pension in Austin" = true.
Proof.
  refine (proj2 (proj2 (C6_pension_in_austin pensionAustinPage
                          (setValue "Pension" blank) (setValue "Austin" blank) blank
                          _ _ _ _ _)) _ _);
    vm_compute; first [reflexivity | discriminate].
Defined.

(** C10: only the location is trimmed before the presence test.  A domain
    made of white space alone, such as " ", passes it: the result region
    gets the header markup, in which the domain stands as it is between
    "Displaying mock results for " and " in ", and not the error card.  A
    location made of white space alone fails it: the result region gets the
    error card. *)
Theorem C10_only_location_is_trimmed (w : World) (d l r : Element) :
  document w !! "domain" = Some d ->
  document w !! "location" = Some l ->
  document w !! "planResult" = Some r ->
  value d <> "" ->
  whitespaceOnly (value d) = true ->
  (trim (value l) <> "" ->
     exists r',
       document (fst (searchResources w)) !! "planResult" = Some r'
       /\ childNodes r'
          = [Markup ("<div class=" ++ dq ++ "result-header" ++ dq ++ "><h2>"
                     ++ ("Displaying mock results for " ++ value d ++ " in "
                         ++ trim (value l))
                     ++ "</h2></div>")]
       /\ display r' = "block"
       /\ forall message,
            childNodes r'
            <> [Markup ("<div class=" ++ dq ++ "card" ++ dq ++ message)])
  /\ (whitespaceOnly (value l) = true ->
     exists r',
       document (fst (searchResources w)) !! "planResult" = Some r'
       /\ childNodes r'
          = [Markup ("<div class=" ++ dq ++ "card" ++ dq ++ " style=" ++ dq
                     ++ "text-align: center; color: #c62828; background-color: #ffebee; padding: 20px;"
                     ++ dq
                     ++ "><strong>Please complete all fields to perform a search.</strong></div>")]
       /\ display r' = "block").
Proof.
  intros Hd Hl Hr Hdom Hws. split.
  - intros Hloc. rewrite (searchResources_complete w d l r) by assumption.
    exists (showHeader (value d) (trim (value l)) r).
    split; [apply lookup_insert_eq|]. split; [reflexivity|]. split; [reflexivity|].
    intros message H. unfold showHeader, resultHeader in H.
    cbn [childNodes] in H. simpl in H. discriminate H.
  - intros Hloc.
    rewrite (searchResources_incomplete w d l r)
      by eauto using whitespaceOnly_trim.
    exists (showError r).
    split; [apply lookup_insert_eq|]. split; reflexivity.
Qed.

Lemma C10_only_location_is_trimmed_witness :
  exists r',
    document (fst (searchResources blankDomainPage)) !! "planResult" = Some r'
    /\ childNodes r'
       = [Markup ("<div class=" ++ dq ++ "result-header" ++ dq
                  ++ "><h2>Displaying mock results for   in Austin</h2></div>")].
Proof.
  destruct (C10_only_location_is_trimmed blankDomainPage
              (setValue " " blank) (setValue "Austin" blank) blank)
    as [Hheader _];
    [ vm_compute; reflexivity | vm_compute; reflexivity | vm_compute; reflexivity
    | vm_compute; discriminate | vm_compute; reflexivity | ].
  destruct Hheader as (r' & Hr' & Hmarkup & _); [vm_compute; discriminate|].
  exists r'. split; [exact Hr'|]. rewrite Hmarkup. reflexivity.
Defined.

(** ** Video Guide *)

Lemma searchVideos_run (query : option string) (w : World) :
  searchVideos query w =
    if truthy (effectiveTerm query w)
    then match document w !! "videoContainer" with
         | Some c =>
             (withDocument
                (insert "videoContainer"
                   (setInnerHTML (videoPlaceholder (effectiveTerm query w)) c)) w,
              Normal tt)
         | None => (w, Normal tt)
         end
    else (mkWorld (document w) (listeners w) (timers w)
            (alerts w ++ ["Please enter a search topic."]) (scrolledIntoView w),
          Normal tt).
Proof.
  unfold searchVideos.
  do 2 (erewrite bind_normal by apply getElementById_refOf).
  assert ((if isElement (refOf w "searchInput")
           then v <- getProp (refOf w "searchInput") value ;; ret (trim v)
           else ret "") w = (w, Normal (fieldTerm w))) as Hfield.
  { unfold refOf, fieldTerm.
    destruct (document w !! "searchInput") as [e|] eqn:Hs; cbn [isElement];
      [js_step|]; reflexivity. }
  erewrite bind_normal with (a := effectiveTerm query w) (w' := w).
  2:{ unfold effectiveTerm. destruct query as [q|]; [destruct (truthy q)|];
      first [exact Hfield | reflexivity]. }
  destruct (truthy (effectiveTerm query w)); cbn [negb]; [|reflexivity].
  unfold refOf, when.
  destruct (document w !! "videoContainer") as [c|] eqn:Hc; cbn [isElement];
    [js_step|]; reflexivity.
Qed.

(** [searchVideos] never throws: both of its lookups are tested first. *)
Lemma searchVideos_returns (query : option string) (w : World) :
  snd (searchVideos query w) = Normal tt.
Proof.
  rewrite searchVideos_run.
  destruct (truthy (effectiveTerm query w)); [|reflexivity].
  destruct (document w !! "videoContainer"); reflexivity.
Qed.

(** C5: without an explicit query and with a search field that is empty or
    only white space, [searchVideos] shows the alert and changes nothing
    else: the video container keeps its content. *)
Theorem C5_empty_video_query_alerts (w : World) (query : option string) (e : Element) :
  query = None \/ query = Some "" ->
  document w !! "searchInput" = Some e ->
  whitespaceOnly (value e) = true ->
  searchVideos query w =
    (mkWorld (document w) (listeners w) (timers w)
       (alerts w ++ ["Please enter a search topic."]) (scrolledIntoView w),
     Normal tt)
  /\ document (fst (searchVideos query w)) !! "videoContainer"
     = document w !! "videoContainer".
Proof.
  intros Hq He Hws.
  assert (effectiveTerm query w = "") as Hterm.
  { unfold effectiveTerm, fieldTerm. rewrite He, (whitespaceOnly_trim _ Hws).
    destruct Hq as [-> | ->]; reflexivity. }
  rewrite searchVideos_run, Hterm. split; reflexivity.
Qed.

Lemma C5_empty_video_query_alerts_witness :
  alerts (fst (searchVideos None
                 (withDocument (insert "searchInput" (setValue "  " blank)) fullPage)))
  = ["Please enter a search topic."].
Proof.
  destruct (C5_empty_video_query_alerts
              (withDocument (insert "searchInput" (setValue "  " blank)) fullPage)
              None (setValue "  " blank)) as [Hrun _];
    [left; reflexivity | vm_compute; reflexivity | vm_compute; reflexivity |].
  rewrite Hrun. reflexivity.
Defined.

(** ** Chatbot: messages *)

Lemma addMessageToChat_null scrollHeight (env : Chatbot) (sender message : string) (w : World) :
  chatBody env = null ->
  addMessageToChat scrollHeight env sender message w = (w, Normal tt).
Proof. intros H. unfold addMessageToChat. rewrite H. reflexivity. Qed.

Lemma addMessageToChat_present scrollHeight (env : Chatbot) (sender message : string)
    (w : World) (id : string) (e : Element) :
  chatBody env = handle id ->
  document w !! id = Some e ->
  addMessageToChat scrollHeight env sender message w
  = (withDocument (insert id (withEntry scrollHeight (entry sender message) e)) w, Normal tt).
Proof.
  intros Hb He. unfold addMessageToChat. rewrite Hb.
  unfold isElement, negb. cbv beta iota zeta.
  js_step.
  erewrite bind_normal
    by (eapply getProp_present; rewrite document_withDocument; apply lookup_insert_eq).
  js_step. rewrite withDocument_insert_twice. reflexivity.
Qed.

Lemma addMessageToChat_dangling scrollHeight (env : Chatbot) (sender message : string)
    (w : World) (id : string) :
  chatBody env = handle id ->
  document w !! id = None ->
  addMessageToChat scrollHeight env sender message w = (w, Throw TypeError).
Proof.
  intros Hb He. unfold addMessageToChat. rewrite Hb.
  unfold isElement, negb, bind, update. cbv beta iota zeta. rewrite He. reflexivity.
Qed.

(** On a page wired by the load callback, a submission of the chat form
    runs the submit handler and nothing else. *)
Lemma submit_event_runs_handler scrollHeight (env : Chatbot) (w : World) :
  listeners w = chatbotListeners env ->
  is_Some (document w !! "chat-form") ->
  perform scrollHeight (UserEvent "chat-form" submit) w
  = runHandler scrollHeight (ChatSubmit env) w.
Proof.
  intros Hl [f Hf]. unfold perform, dispatchEvent. rewrite Hf, Hl.
  unfold chatbotListeners, runListeners. cbn [target eventType handler].
  repeat (first [ rewrite bool_decide_eq_true_2 by reflexivity
                | rewrite bool_decide_eq_false_2 by discriminate ]).
  cbn [andb when]. unfold thenAlso, ret.
  destruct (runHandler scrollHeight (ChatSubmit env) w) as [w' [[]|e]]; reflexivity.
Qed.

(** C7: a submission whose input is empty or trims to empty does nothing:
    the handler returns with the page as it was, so no entry (user or bot)
    is appended and no reply is scheduled; the same holds of the submit
    event on a page wired by the load callback. *)
Theorem C7_blank_submission_is_noop scrollHeight (env : Chatbot) (w : World)
    (id : string) (e : Element) :
  chatInputField env = handle id ->
  document w !! id = Some e ->
  whitespaceOnly (value e) = true ->
  runHandler scrollHeight (ChatSubmit env) w = (w, Normal tt)
  /\ transcript (fst (runHandler scrollHeight (ChatSubmit env) w)) = transcript w
  /\ timers (fst (runHandler scrollHeight (ChatSubmit env) w)) = timers w
  /\ (listeners w = chatbotListeners env ->
      is_Some (document w !! "chat-form") ->
      perform scrollHeight (UserEvent "chat-form" submit) w = (w, Normal tt)).
Proof.
  intros Hf He Hws.
  assert (runHandler scrollHeight (ChatSubmit env) w = (w, Normal tt)) as Hrun.
  { unfold runHandler, preventDefault. rewrite Hf.
    rewrite (bind_normal _ _ w w tt) by reflexivity.
    js_step. rewrite (whitespaceOnly_trim _ Hws). reflexivity. }
  rewrite Hrun. repeat split.
  intros Hl Hform. rewrite (submit_event_runs_handler scrollHeight env w Hl Hform).
  exact Hrun.
Qed.

Lemma C7_blank_submission_is_noop_witness :
  let w := withDocument (insert "chat-input-field" (setValue "   " blank)) fullPage in
  timers (fst (runHandler rowLayout (ChatSubmit (chatbotOf "chat-input-field")) w))
  = timers w.
Proof.
  refine (proj1 (proj2 (proj2 (C7_blank_submission_is_noop rowLayout
                          (chatbotOf "chat-input-field")
                          (withDocument (insert "chat-input-field" (setValue "   " blank))
                             fullPage)
                          "chat-input-field" (setValue "   " blank) _ _ _))));
    vm_compute; reflexivity.
Defined.

(** What a submission with text does, for comparison: the user's entry is
    appended at once, the field is cleared and one reply is scheduled. *)
Lemma submission_with_text scrollHeight (env : Chatbot) (w : World) (e b : Element) :
  chatInputField env = handle "chat-input-field" ->
  chatBody env = handle "chat-body" ->
  document w !! "chat-input-field" = Some e ->
  document w !! "chat-body" = Some b ->
  trim (value e) <> "" ->
  runHandler scrollHeight (ChatSubmit env) w
  = (mkWorld
       (<["chat-input-field" := setValue "" e]>
          (<["chat-body" := withEntry scrollHeight (entry "user" (trim (value e))) b]>
             (document w)))
       (listeners w)
       (timers w ++ [mkTimer (BotReply env (trim (value e))) 1000])
       (alerts w) (scrolledIntoView w),
     Normal tt).
Proof.
  intros Hf Hb He Hbody Htext.
  unfold runHandler, preventDefault. rewrite Hf.
  rewrite (bind_normal _ _ w w tt) by reflexivity.
  js_step. apply truthy_true_iff in Htext. rewrite Htext. unfold when.
  erewrite bind_normal by (eapply addMessageToChat_present; eassumption).
  erewrite bind_normal
    by (eapply update_present; rewrite document_withDocument, lookup_insert_ne;
        [eassumption | discriminate]).
  reflexivity.
Qed.

(** Without the transcript region a submission with text appends nothing,
    and still clears the field and schedules the reply. *)
Lemma submission_without_transcript scrollHeight (env : Chatbot) (w : World)
    (id : string) (e : Element) :
  chatInputField env = handle id ->
  chatBody env = null ->
  document w !! id = Some e ->
  trim (value e) <> "" ->
  runHandler scrollHeight (ChatSubmit env) w
  = (mkWorld (<[id := setValue "" e]> (document w)) (listeners w)
       (timers w ++ [mkTimer (BotReply env (trim (value e))) 1000])
       (alerts w) (scrolledIntoView w),
     Normal tt).
Proof.
  intros Hf Hb He Htext.
  unfold runHandler, preventDefault. rewrite Hf.
  rewrite (bind_normal _ _ w w tt) by reflexivity.
  js_step. apply truthy_true_iff in Htext. rewrite Htext. unfold when.
  erewrite bind_normal by (eapply addMessageToChat_null; eassumption).
  js_step. reflexivity.
Qed.

(** ** Chatbot: wiring at page load *)

Lemma onDOMContentLoaded_run (w : World) :
  onDOMContentLoaded w =
    if chatbotMarkupPresent w
    then (mkWorld (document w) (listeners w ++ chatbotListeners (captured w))
            (timers w) (alerts w) (scrolledIntoView w), Normal tt)
    else (w, Normal tt).
Proof.
  unfold onDOMContentLoaded.
  do 6 (erewrite bind_normal by apply getElementById_refOf).
  unfold chatbotMarkupPresent, captured, refOf, when.
  destruct (document w !! "open-chatbot-btn"), (document w !! "chatbot-container"),
    (document w !! "close-chatbot-btn"), (document w !! "chat-form");
    cbn [isElement andb]; try reflexivity.
  unfold bind, addEventListener, chatbotListeners. cbn [document listeners timers alerts scrolledIntoView].
  rewrite <- !app_assoc. reflexivity.
Qed.

(** ** Chatbot: opening and closing *)

Lemma finalDisplay_last (ts : list Toggle) (t : Toggle) (initial : string) :
  finalDisplay (ts ++ [t])%list initial = displayAfter t.
Proof. unfold finalDisplay. rewrite fold_left_app. reflexivity. Qed.

Lemma toggle_step scrollHeight (w : World) (env : Chatbot) (cid : string) (c : Element)
    (t : Toggle) :
  listeners w = chatbotListeners env ->
  chatbotContainer env = handle cid ->
  document w !! cid = Some c ->
  is_Some (document w !! "open-chatbot-btn") ->
  is_Some (document w !! "close-chatbot-btn") ->
  exec scrollHeight (toggleAction t) w
  = withDocument (insert cid (setDisplay (displayAfter t) c)) w.
Proof.
  intros Hl Hc Hdoc [b1 Hopen] [b2 Hclose].
  unfold exec, perform, toggleAction, dispatchEvent.
  destruct t; rewrite ?Hopen, ?Hclose, Hl; unfold chatbotListeners, runListeners;
    cbn [target eventType handler];
    repeat (first [ rewrite bool_decide_eq_true_2 by reflexivity
                  | rewrite bool_decide_eq_false_2 by discriminate ]);
    cbn [andb when]; unfold thenAlso, runHandler, ret; rewrite Hc;
    rewrite (update_present _ _ _ _ Hdoc); reflexivity.
Qed.

Lemma setDisplay_twice (d1 d2 : string) (e : Element) :
  setDisplay d2 (setDisplay d1 e) = setDisplay d2 e.
Proof. reflexivity. Qed.

Lemma setDisplay_same (e : Element) : setDisplay (display e) e = e.
Proof. destruct e. reflexivity. Qed.

Lemma toggles_run scrollHeight (env : Chatbot) (cid : string) (ts : list Toggle) :
  forall (w : World) (c : Element),
    listeners w = chatbotListeners env ->
    chatbotContainer env = handle cid ->
    document w !! cid = Some c ->
    is_Some (document w !! "open-chatbot-btn") ->
    is_Some (document w !! "close-chatbot-btn") ->
    execAll scrollHeight (map toggleAction ts) w
    = withDocument (insert cid (setDisplay (finalDisplay ts (display c)) c)) w.
Proof.
  induction ts as [|t ts IH]; intros w c Hl Hc Hdoc Hopen Hclose.
  - simpl. rewrite setDisplay_same. symmetry. apply withDocument_insert_same, Hdoc.
  - unfold execAll. cbn [map fold_left].
    rewrite (toggle_step scrollHeight w env cid c t) by assumption.
    fold (execAll scrollHeight (map toggleAction ts)
            (withDocument (insert cid (setDisplay (displayAfter t) c)) w)).
    rewrite (IH _ (setDisplay (displayAfter t) c)); try assumption.
    + rewrite withDocument_insert_twice, setDisplay_twice. reflexivity.
    + rewrite document_withDocument. apply lookup_insert_eq.
    + rewrite document_withDocument. apply lookup_insert_is_Some'. auto.
    + rewrite document_withDocument. apply lookup_insert_is_Some'. auto.
Qed.

Lemma transcript_setDisplay (w : World) (cid d : string) (c : Element) :
  document w !! cid = Some c ->
  transcript (withDocument (insert cid (setDisplay d c)) w) = transcript w.
Proof.
  intros Hdoc. unfold transcript. rewrite document_withDocument.
  destruct (decide (cid = "chat-body")) as [->|Hne].
  - rewrite lookup_insert_eq, Hdoc. reflexivity.
  - rewrite lookup_insert_ne by assumption. reflexivity.
Qed.

(** C8: clicks on the open and close buttons change the [display] of the
    container and nothing else.  After any run of such clicks the container
    has the value, the content and the scroll position it had, every other
    element, the listeners, the timers, the alerts and the scroll log are
    as they were, and so is the transcript; the [display] of the container
    is "none" (closed) when the last click was a close, "flex" when it was an
    open, and what it was when there was no click. *)
Theorem C8_toggling_only_changes_visibility scrollHeight (w : World) (env : Chatbot)
    (cid : string) (c : Element) (ts : list Toggle) :
  listeners w = chatbotListeners env ->
  chatbotContainer env = handle cid ->
  document w !! cid = Some c ->
  is_Some (document w !! "open-chatbot-btn") ->
  is_Some (document w !! "close-chatbot-btn") ->
  let w' := execAll scrollHeight (map toggleAction ts) w in
  (exists c',
      document w' !! cid = Some c'
      /\ value c' = value c
      /\ childNodes c' = childNodes c
      /\ scrollTop c' = scrollTop c
      /\ (ts = [] -> display c' = display c)
      /\ (forall ts', ts = (ts' ++ [Open])%list -> display c' = "flex")
      /\ (forall ts', ts = (ts' ++ [Close])%list -> display c' = "none"))
  /\ (forall id, id <> cid -> document w' !! id = document w !! id)
  /\ listeners w' = listeners w
  /\ timers w' = timers w
  /\ alerts w' = alerts w
  /\ scrolledIntoView w' = scrolledIntoView w
  /\ transcript w' = transcript w.
Proof.
  intros Hl Hc Hdoc Hopen Hclose w'. subst w'.
  rewrite (toggles_run scrollHeight env cid ts w c) by assumption.
  split; [|split; [|split; [|split; [|split; [|split]]]]]; try reflexivity.
  - exists (setDisplay (finalDisplay ts (display c)) c).
    rewrite document_withDocument, lookup_insert_eq.
    split; [reflexivity|]. split; [reflexivity|]. split; [reflexivity|].
    split; [reflexivity|]. split; [|split].
    + intros ->. reflexivity.
    + intros ts' ->. cbn [display setDisplay]. rewrite finalDisplay_last. reflexivity.
    + intros ts' ->. cbn [display setDisplay]. rewrite finalDisplay_last. reflexivity.
  - intros id Hid. rewrite document_withDocument.
    apply lookup_insert_ne. congruence.
  - apply transcript_setDisplay, Hdoc.
Qed.

Lemma C8_toggling_only_changes_visibility_witness :
  let w := exec rowLayout DOMContentLoaded fullPage in
  let w' := execAll rowLayout (map toggleAction [Open; Close; Open; Close]) w in
  transcript w' = transcript w
  /\ exists c', document w' !! "chatbot-container" = Some c' /\ display c' = "none".
Proof.
  intros w w'.
  destruct (C8_toggling_only_changes_visibility rowLayout w (captured fullPage)
              "chatbot-container" blank [Open; Close; Open; Close])
    as ((c' & Hc' & _ & _ & _ & _ & _ & Hclosed) & _ & _ & _ & _ & _ & Htr);
    [ vm_compute; reflexivity | vm_compute; reflexivity | vm_compute; reflexivity
    | vm_compute; eauto | vm_compute; eauto | ].
  split; [exact Htr|]. exists c'. split; [exact Hc'|].
  apply (Hclosed [Open; Close; Open]). reflexivity.
Defined.

(** ** The transcript only grows *)

Lemma grows_refl (l : list Node) : grows l l.
Proof. exists []. split; [symmetry; apply app_nil_r | constructor]. Qed.

Lemma grows_trans (l1 l2 l3 : list Node) : grows l1 l2 -> grows l2 l3 -> grows l1 l3.
Proof.
  intros (s1 & -> & H1) (s2 & -> & H2). exists (s1 ++ s2)%list.
  split; [symmetry; apply app_assoc | apply Forall_app; auto].
Qed.

Lemma AppendOnly_weaken {A} (Q : A -> Prop) (m : JS A) :
  AppendOnly Q m -> AppendOnly anything m.
Proof. intros H w. split; [apply H | intros; exact I]. Qed.

Lemma AppendOnly_ret {A} (a : A) : AppendOnly (fun x => x = a) (ret a).
Proof.
  intros w. split; [apply grows_refl|]. unfold ret. simpl. congruence.
Qed.

Lemma AppendOnly_bind {A B} (Q : A -> Prop) (R : B -> Prop) (m : JS A) (k : A -> JS B) :
  AppendOnly Q m ->
  (forall a, Q a -> AppendOnly R (k a)) ->
  AppendOnly R (bind m k).
Proof.
  intros Hm Hk w. destruct (Hm w) as [Hgrow Hres]. unfold bind.
  destruct (m w) as [w1 [a|e]] eqn:Hrun; simpl in *.
  - destruct (Hk a (Hres a eq_refl) w1) as [Hgrow' Hres'].
    split; [eapply grows_trans; eassumption | exact Hres'].
  - split; [exact Hgrow | discriminate].
Qed.

Lemma AppendOnly_getElementById (id : string) :
  AppendOnly (fun r => r = null \/ r = handle id) (getElementById id).
Proof.
  intros w. rewrite getElementById_refOf. simpl. split; [apply grows_refl|].
  intros a [= <-]. unfold refOf. destruct (document w !! id); auto.
Qed.

Lemma AppendOnly_getProp {A} (r : Ref) (prop : Element -> A) :
  AppendOnly anything (getProp r prop).
Proof.
  intros w. unfold getProp.
  destruct r as [|id]; [|destruct (document w !! id)]; simpl;
    (split; [apply grows_refl | intros; exact I]).
Qed.

(** Writing to an element keeps the transcript growing when, on the
    transcript region, the write only appends entries. *)
Lemma AppendOnly_update (r : Ref) (f : Element -> Element) :
  (r = handle "chat-body" -> forall e, grows (childNodes e) (childNodes (f e))) ->
  AppendOnly anything (update r f).
Proof.
  intros Hf w. unfold update.
  destruct r as [|id]; [|destruct (document w !! id) as [e|] eqn:He]; simpl;
    (split; [| intros; exact I]); try apply grows_refl.
  unfold transcript. rewrite document_withDocument.
  destruct (decide (id = "chat-body")) as [->|Hne].
  - rewrite lookup_insert_eq, He. apply Hf. reflexivity.
  - rewrite lookup_insert_ne by assumption. apply grows_refl.
Qed.

Lemma AppendOnly_alert (message : string) : AppendOnly anything (alert message).
Proof. intros w. split; [apply grows_refl | intros; exact I]. Qed.

Lemma AppendOnly_setTimeout (t : TimerTask) (ms : N) : AppendOnly anything (setTimeout t ms).
Proof. intros w. split; [apply grows_refl | intros; exact I]. Qed.

Lemma AppendOnly_scrollIntoView (r : Ref) : AppendOnly anything (scrollIntoView r).
Proof.
  intros w. unfold scrollIntoView.
  destruct r; simpl; (split; [apply grows_refl | intros; exact I]).
Qed.

Lemma AppendOnly_when (c : bool) (body : JS unit) :
  AppendOnly anything body -> AppendOnly anything (when c body).
Proof.
  intros H. destruct c; simpl; [exact H|].
  eapply AppendOnly_weaken, AppendOnly_ret.
Qed.

Lemma AppendOnly_seq {A B} (Q : A -> Prop) (m : JS A) (k : JS B) :
  AppendOnly Q m -> AppendOnly anything k -> AppendOnly anything (bind m (fun _ => k)).
Proof. intros Hm Hk. eapply AppendOnly_bind; [exact Hm | intros; exact Hk]. Qed.

(** The element writes of the script, seen from the transcript region. *)
Lemma grows_setDisplay (d : string) (e : Element) :
  grows (childNodes e) (childNodes (setDisplay d e)).
Proof. apply grows_refl. Qed.

Lemma grows_setValue (v : string) (e : Element) :
  grows (childNodes e) (childNodes (setValue v e)).
Proof. apply grows_refl. Qed.

Lemma grows_setScrollTop (y : N) (e : Element) :
  grows (childNodes e) (childNodes (setScrollTop y e)).
Proof. apply grows_refl. Qed.

Lemma grows_appendChild (n : Node) (e : Element) :
  chatEntry n -> grows (childNodes e) (childNodes (appendChild n e)).
Proof. intros Hn. exists [n]. split; [reflexivity | repeat constructor; exact Hn]. Qed.

Lemma AppendOnly_searchResources : AppendOnly anything searchResources.
Proof.
  unfold searchResources.
  eapply AppendOnly_bind; [apply AppendOnly_getElementById | intros domainEl _].
  eapply AppendOnly_bind; [apply AppendOnly_getProp | intros domain _].
  eapply AppendOnly_bind; [apply AppendOnly_getElementById | intros locationEl _].
  eapply AppendOnly_bind; [apply AppendOnly_getProp | intros location _].
  eapply AppendOnly_bind; [apply AppendOnly_getElementById | intros resultDiv Hres].
  assert (resultDiv <> handle "chat-body") as Hne
    by (destruct Hres as [-> | ->]; discriminate).
  destruct (negb (truthy domain) || negb (truthy (trim location)));
    apply AppendOnly_when;
    repeat (eapply AppendOnly_seq;
            [apply AppendOnly_update; intros; contradiction|]);
    first [ apply AppendOnly_update; intros; contradiction
          | apply AppendOnly_scrollIntoView ].
Qed.

Lemma AppendOnly_searchVideos (query : option string) :
  AppendOnly anything (searchVideos query).
Proof.
  unfold searchVideos.
  eapply AppendOnly_bind; [apply AppendOnly_getElementById | intros searchInput _].
  eapply AppendOnly_bind; [apply AppendOnly_getElementById | intros videoContainer Hres].
  assert (videoContainer <> handle "chat-body") as Hne
    by (destruct Hres as [-> | ->]; discriminate).
  assert (AppendOnly anything
            (if isElement searchInput
             then v <- getProp searchInput value ;; ret (trim v)
             else ret "")) as Hfield.
  { destruct (isElement searchInput).
    - eapply AppendOnly_bind; [apply AppendOnly_getProp|].
      intros v _. eapply AppendOnly_weaken, AppendOnly_ret.
    - eapply AppendOnly_weaken, AppendOnly_ret. }
  eapply AppendOnly_bind with (Q := anything).
  - destruct query as [q|]; [destruct (truthy q)|]; try exact Hfield.
    eapply AppendOnly_weaken, AppendOnly_ret.
  - intros searchTerm _. destruct (negb (truthy searchTerm)).
    + apply AppendOnly_alert.
    + apply AppendOnly_when, AppendOnly_update. intros; contradiction.
Qed.

Lemma AppendOnly_addMessageToChat scrollHeight (env : Chatbot) (sender message : string) :
  sender = "user" \/ sender = "bot" ->
  AppendOnly anything (addMessageToChat scrollHeight env sender message).
Proof.
  intros Hsender. unfold addMessageToChat.
  destruct (negb (isElement (chatBody env))).
  - eapply AppendOnly_weaken, AppendOnly_ret.
  - cbv zeta. eapply AppendOnly_seq.
    + apply AppendOnly_update. intros _ e. apply grows_appendChild.
      exists sender, message. auto.
    + eapply AppendOnly_bind; [apply AppendOnly_getProp|].
      intros h _. apply AppendOnly_update. intros _ e. apply grows_setScrollTop.
Qed.

Lemma AppendOnly_runTimerTask scrollHeight (t : TimerTask) :
  AppendOnly anything (runTimerTask scrollHeight t).
Proof.
  destruct t as [env userMessage]. simpl.
  apply AppendOnly_addMessageToChat. auto.
Qed.

Lemma AppendOnly_runHandler scrollHeight (h : Handler) :
  AppendOnly anything (runHandler scrollHeight h).
Proof.
  destruct h as [env|env|env]; simpl.
  - apply AppendOnly_update. intros _ e. apply grows_setDisplay.
  - apply AppendOnly_update. intros _ e. apply grows_setDisplay.
  - eapply AppendOnly_seq; [apply AppendOnly_ret|].
    eapply AppendOnly_bind; [apply AppendOnly_getProp|]. intros v _.
    apply AppendOnly_when.
    eapply AppendOnly_seq; [apply AppendOnly_addMessageToChat; auto|].
    eapply AppendOnly_seq; [|apply AppendOnly_setTimeout].
    apply AppendOnly_update. intros _ e. apply grows_setValue.
Qed.

Lemma AppendOnly_thenAlso (m k : JS unit) :
  AppendOnly anything m -> AppendOnly anything k -> AppendOnly anything (thenAlso m k).
Proof.
  intros Hm Hk w. split; [|intros; exact I].
  destruct (Hm w) as [Hgrow _]. unfold thenAlso.
  destruct (m w) as [w1 [[]|e]]; simpl in *;
    (eapply grows_trans; [exact Hgrow | apply Hk]).
Qed.

Lemma AppendOnly_runListeners scrollHeight (ls : list Listener) (id : string) (ev : EventType) :
  AppendOnly anything (runListeners scrollHeight ls id ev).
Proof.
  induction ls as [|l ls IH]; simpl.
  - eapply AppendOnly_weaken, AppendOnly_ret.
  - apply AppendOnly_thenAlso; [|exact IH].
    apply AppendOnly_when, AppendOnly_runHandler.
Qed.

Lemma AppendOnly_onDOMContentLoaded : AppendOnly anything onDOMContentLoaded.
Proof.
  intros w. split; [|intros; exact I].
  rewrite onDOMContentLoaded_run.
  destruct (chatbotMarkupPresent w); apply grows_refl.
Qed.

Lemma AppendOnly_perform scrollHeight (a : Action) :
  AppendOnly anything (perform scrollHeight a).
Proof.
  destruct a as [| |query|id text|id ev|]; simpl.
  - apply AppendOnly_onDOMContentLoaded.
  - apply AppendOnly_searchResources.
  - apply AppendOnly_searchVideos.
  - intros w. split; [|intros; exact I].
    destruct (document w !! id) as [e|] eqn:He; simpl; [|apply grows_refl].
    unfold transcript. rewrite document_withDocument.
    destruct (decide (id = "chat-body")) as [->|Hne].
    + rewrite lookup_insert_eq, He. apply grows_setValue.
    + rewrite lookup_insert_ne by assumption. apply grows_refl.
  - intros w. split; [|intros; exact I].
    destruct (document w !! id); [|apply grows_refl].
    apply AppendOnly_runListeners.
  - intros w. split; [|intros; exact I].
    destruct (timers w) as [|t ts]; [apply grows_refl|].
    apply (AppendOnly_runTimerTask scrollHeight (task t)
             (mkWorld (document w) (listeners w) ts (alerts w) (scrolledIntoView w))).
Qed.

(** C9: the transcript is append-only.  Whatever the page is and whatever
    happens to it (page load, either search, an edit of a form control, a
    click or a submission, a timer that elapses), the transcript afterwards
    is the transcript before followed by new chat entries, in the order in
    which they were appended; no entry is removed, moved or edited. *)
Theorem C9_transcript_append_only scrollHeight (acts : list Action) (w : World) :
  exists suffix,
    transcript (execAll scrollHeight acts w) = (transcript w ++ suffix)%list
    /\ Forall chatEntry suffix.
Proof.
  change (grows (transcript w) (transcript (execAll scrollHeight acts w))).
  revert w. induction acts as [|a acts IH]; intros w.
  - apply grows_refl.
  - unfold execAll. cbn [fold_left].
    eapply grows_trans; [|apply IH].
    apply (AppendOnly_perform scrollHeight a w).
Qed.

(** A run on the full page: two submissions, then their replies, in the
    order of the submissions. *)
Example transcript_of_two_messages :
  transcript
    (execAll rowLayout
       [ DOMContentLoaded;
         UserEdits "chat-input-field" " hello ";
         UserEvent "chat-form" submit;
         UserEvent "close-chatbot-btn" click;
         UserEdits "chat-input-field" "Thanks";
         UserEvent "chat-form" submit;
         UserEvent "chat-form" submit;
         TimerElapses; TimerElapses; TimerElapses ]
       fullPage)
  = [ entry "user" "hello"; entry "user" "Thanks";
      entry "bot" greetingReply; entry "bot" thankReply ].
Proof. vm_compute. reflexivity. Qed.

(** ** Pages that lack elements *)

Lemma World_eta (w : World) :
  w = mkWorld (document w) (listeners w) (timers w) (alerts w ++ []) (scrolledIntoView w).
Proof. destruct w. simpl. rewrite app_nil_r. reflexivity. Qed.

Lemma searchVideos_without_container (query : option string) (w : World) :
  document w !! "videoContainer" = None ->
  exists shown,
    searchVideos query w
    = (mkWorld (document w) (listeners w) (timers w) (alerts w ++ shown)
         (scrolledIntoView w), Normal tt)
    /\ (shown = [] \/ shown = ["Please enter a search topic."]).
Proof.
  intros Hc. rewrite searchVideos_run, Hc.
  destruct (truthy (effectiveTerm query w)).
  - exists []. split; [f_equal; apply World_eta | auto].
  - exists ["Please enter a search topic."]. auto.
Qed.

Lemma searchVideos_without_field (w : World) :
  document w !! "searchInput" = None ->
  searchVideos None w
  = (mkWorld (document w) (listeners w) (timers w)
       (alerts w ++ ["Please enter a search topic."]) (scrolledIntoView w),
     Normal tt).
Proof.
  intros Hs. rewrite searchVideos_run. unfold effectiveTerm, fieldTerm.
  rewrite Hs. reflexivity.
Qed.

Lemma searchResources_without_result (w : World) (d l : Element) :
  document w !! "domain" = Some d ->
  document w !! "location" = Some l ->
  document w !! "planResult" = None ->
  searchResources w = (w, Normal tt).
Proof.
  intros Hd Hl Hr. unfold searchResources. do 5 js_step.
  destruct (negb (truthy (value d)) || negb (truthy (trim (value l)))); reflexivity.
Qed.

(** The two form fields of the Services Hub are read without a test: on a
    page without one of them the property access throws. *)
Lemma searchResources_without_field (w : World) :
  document w !! "domain" = None \/ document w !! "location" = None ->
  searchResources w = (w, Throw TypeError).
Proof.
  intros H. unfold searchResources, bind, getElementById, getProp.
  destruct (document w !! "domain") eqn:Hd; [|reflexivity].
  rewrite Hd. destruct H as [H|H]; [discriminate|]. rewrite H. reflexivity.
Qed.

(** So is the message field of the chat form. *)
Lemma chatSubmit_without_field scrollHeight (env : Chatbot) (w : World) :
  chatInputField env = null ->
  runHandler scrollHeight (ChatSubmit env) w = (w, Throw TypeError).
Proof. intros H. unfold runHandler. rewrite H. reflexivity. Qed.

Lemma no_listeners_no_handler scrollHeight (w : World) (id : string) (ev : EventType) :
  listeners w = [] ->
  perform scrollHeight (UserEvent id ev) w = (w, Normal tt).
Proof.
  intros Hl. unfold perform, dispatchEvent. rewrite Hl.
  destruct (document w !! id); reflexivity.
Qed.

(** A submission whose trimmed input is empty, whatever the page lacks
    besides the message field. *)
Lemma blank_submission_run scrollHeight (env : Chatbot) (w : World) (id : string)
    (e : Element) :
  chatInputField env = handle id ->
  document w !! id = Some e ->
  trim (value e) = "" ->
  runHandler scrollHeight (ChatSubmit env) w = (w, Normal tt).
Proof.
  intros Hf He Hblank. unfold runHandler, preventDefault. rewrite Hf.
  rewrite (bind_normal _ _ w w tt) by reflexivity.
  js_step. rewrite Hblank. reflexivity.
Qed.

(** C1, as the code has it, handler by handler.

    [searchResources], with both form fields on the page and the result
    region absent, returns with the page as it was.

    [searchVideos] never throws.  Its search term is the query when that is
    a non-empty string, else the trimmed value of the search field, else
    (the field absent) the empty string.  When the term is empty it shows
    its alert and changes nothing else, also on a page without the field or
    without the container; when the term is not empty and the video
    container is absent it returns with the page as it was.

    When the open button, the container, the close button or the form is
    absent at page load, the load callback returns with the page as it was:
    no listener is registered, and a later click or submission runs no
    handler.

    With the transcript region absent, [addMessageToChat] returns with the
    page as it was, and the chat submit handler (the message field present)
    appends nothing and does not throw: on blank input it returns with the
    page as it was; on input with text it still empties the message field
    and schedules the reply after 1000 ms, leaves everything else as it was,
    and the callback of that timer returns without changing anything. *)
Theorem C1_absent_output_elements scrollHeight (w : World) :
  (forall d l,
      document w !! "domain" = Some d ->
      document w !! "location" = Some l ->
      document w !! "planResult" = None ->
      searchResources w = (w, Normal tt))
  /\ (forall query, snd (searchVideos query w) = Normal tt)
  /\ (forall q,
      q <> "" ->
      document w !! "videoContainer" = None ->
      searchVideos (Some q) w = (w, Normal tt))
  /\ (forall query e,
      query = None \/ query = Some "" ->
      document w !! "searchInput" = Some e ->
      trim (value e) <> "" ->
      document w !! "videoContainer" = None ->
      searchVideos query w = (w, Normal tt))
  /\ (forall query,
      query = None \/ query = Some "" ->
      document w !! "searchInput" = None
      \/ (exists e, document w !! "searchInput" = Some e /\ trim (value e) = "") ->
      searchVideos query w
      = (mkWorld (document w) (listeners w) (timers w)
           (alerts w ++ ["Please enter a search topic."]) (scrolledIntoView w),
         Normal tt))
  /\ (document w !! "open-chatbot-btn" = None
      \/ document w !! "chatbot-container" = None
      \/ document w !! "close-chatbot-btn" = None
      \/ document w !! "chat-form" = None ->
      onDOMContentLoaded w = (w, Normal tt)
      /\ (listeners w = [] ->
          forall id ev, perform scrollHeight (UserEvent id ev) w = (w, Normal tt)))
  /\ (forall env sender message,
      chatBody env = null ->
      addMessageToChat scrollHeight env sender message w = (w, Normal tt))
  /\ (forall env id e,
      chatInputField env = handle id ->
      chatBody env = null ->
      document w !! id = Some e ->
      (trim (value e) = "" ->
       runHandler scrollHeight (ChatSubmit env) w = (w, Normal tt))
      /\ (trim (value e) <> "" ->
          let w1 := fst (runHandler scrollHeight (ChatSubmit env) w) in
          snd (runHandler scrollHeight (ChatSubmit env) w) = Normal tt
          /\ transcript w1 = transcript w
          /\ (exists e',
                document w1 !! id = Some e'
                /\ value e' = ""
                /\ display e' = display e
                /\ childNodes e' = childNodes e
                /\ scrollTop e' = scrollTop e)
          /\ (forall j, j <> id -> document w1 !! j = document w !! j)
          /\ timers w1
             = (timers w ++ [mkTimer (BotReply env (trim (value e))) 1000])%list
          /\ listeners w1 = listeners w
          /\ alerts w1 = alerts w
          /\ scrolledIntoView w1 = scrolledIntoView w
          /\ runTimerTask scrollHeight (BotReply env (trim (value e))) w1
             = (w1, Normal tt))).
Proof.
  split; [|split; [|split; [|split; [|split; [|split; [|split]]]]]].
  - intros d l. apply searchResources_without_result.
  - intros query. apply searchVideos_returns.
  - intros q Hq Hc. rewrite searchVideos_run. unfold effectiveTerm.
    apply truthy_true_iff in Hq. rewrite Hq. cbv iota. rewrite Hq, Hc. reflexivity.
  - intros query e Hq He Hterm Hc.
    assert (effectiveTerm query w = trim (value e)) as Heff.
    { unfold effectiveTerm, fieldTerm. rewrite He.
      destruct Hq as [-> | ->]; reflexivity. }
    rewrite searchVideos_run, Heff, Hc.
    apply truthy_true_iff in Hterm. rewrite Hterm. reflexivity.
  - intros query Hq Hfield.
    assert (effectiveTerm query w = "") as Heff.
    { unfold effectiveTerm, fieldTerm.
      destruct Hfield as [-> | (e & -> & ->)]; destruct Hq as [-> | ->]; reflexivity. }
    rewrite searchVideos_run, Heff. reflexivity.
  - intros Habsent.
    assert (chatbotMarkupPresent w = false) as Hguard.
    { unfold chatbotMarkupPresent, refOf.
      destruct Habsent as [-> | [-> | [-> | ->]]]; cbn [isElement andb];
        rewrite ?andb_false_r; reflexivity. }
    split.
    + rewrite onDOMContentLoaded_run, Hguard. reflexivity.
    + intros Hl id ev. apply no_listeners_no_handler, Hl.
  - intros env sender message. apply addMessageToChat_null.
  - intros env id e Hf Hb He. split.
    + intros Hblank. apply (blank_submission_run scrollHeight env w id e); assumption.
    + intros Htext w1. subst w1.
      rewrite (submission_without_transcript scrollHeight env w id e) by assumption.
      cbn [fst snd document timers listeners alerts scrolledIntoView].
      split; [reflexivity|]. split; [|split; [|split; [|split]]].
      * unfold transcript. cbn [document].
        destruct (decide (id = "chat-body")) as [->|Hne].
        -- rewrite lookup_insert_eq, He. reflexivity.
        -- rewrite lookup_insert_ne by assumption. reflexivity.
      * exists (setValue "" e). rewrite lookup_insert_eq. repeat split.
      * intros j Hj. apply lookup_insert_ne. congruence.
      * reflexivity.
      * repeat split. cbn [runTimerTask]. apply addMessageToChat_null, Hb.
Qed.

Lemma C1_absent_output_elements_witness :
  searchResources fieldOnlyPage = (fieldOnlyPage, Normal tt)
  /\ onDOMContentLoaded fieldOnlyPage = (fieldOnlyPage, Normal tt)
  /\ alerts (fst (searchVideos None fieldOnlyPage)) = ["Please enter a search topic."]
  /\ (exists e',
        document (fst (runHandler rowLayout (ChatSubmit (captured noTranscriptPage))
                         noTranscriptPage)) !! "chat-input-field" = Some e'
        /\ value e' = "").
Proof.
  destruct (C1_absent_output_elements rowLayout fieldOnlyPage)
    as (Hres & _ & _ & _ & Halert & Hload & _ & _).
  destruct (C1_absent_output_elements rowLayout noTranscriptPage)
    as (_ & _ & _ & _ & _ & _ & _ & Hsubmit).
  split; [|split; [|split]].
  - apply (Hres blank blank); vm_compute; reflexivity.
  - apply Hload. left. vm_compute. reflexivity.
  - rewrite (Halert None); [reflexivity | left; reflexivity |].
    right. exists blank. split; vm_compute; reflexivity.
  - destruct (Hsubmit (captured noTranscriptPage) "chat-input-field"
                (mkElement "hello" "" [] 0)) as [_ Htext];
      [vm_compute; reflexivity | vm_compute; reflexivity | vm_compute; reflexivity |].
    destruct Htext as (_ & _ & (e' & He' & Hv & _) & _);
      [vm_compute; discriminate|].
    exists e'. split; [exact He' | exact Hv].
Defined.

(** C1 as stated fails: on a page without the search field, [searchVideos]
    called without a query does not skip silently, it shows the alert. *)
Lemma C1_missing_search_field_alerts :
  document emptyPage !! "searchInput" = None
  /\ ~ silentlySkips (searchVideos None) emptyPage
  /\ alerts (fst (searchVideos None emptyPage)) = ["Please enter a search topic."].
Proof.
  split; [reflexivity|]. split; [|reflexivity].
  unfold silentlySkips. vm_compute. discriminate.
Qed.

(** ** More on the reply table *)

Lemma lowerChar_idempotent (c : ascii) : lowerChar (lowerChar c) = lowerChar c.
Proof. destruct c as [[] [] [] [] [] [] [] []]; reflexivity. Qed.

Lemma toLowerCase_idempotent (s : string) : toLowerCase (toLowerCase s) = toLowerCase s.
Proof.
  induction s as [|c s IH]; simpl; [reflexivity|].
  rewrite lowerChar_idempotent, IH. reflexivity.
Qed.

Lemma lowerChar_upperChar (c : ascii) : lowerChar (upperChar c) = lowerChar c.
Proof. destruct c as [[] [] [] [] [] [] [] []]; reflexivity. Qed.

Lemma sameUpToCase_toLowerCase (a b : string) :
  sameUpToCase a b = true -> toLowerCase a = toLowerCase b.
Proof.
  revert b. induction a as [|x a IH]; intros [|y b]; try discriminate; [reflexivity|].
  cbn [sameUpToCase toLowerCase].
  intros [Hxy Hab]%andb_true_iff. rewrite (IH b Hab). f_equal.
  apply orb_true_iff in Hxy as [Hxy|Hxy]; [apply orb_true_iff in Hxy as [Hxy|Hxy]|];
    apply Ascii.eqb_eq in Hxy; subst;
    rewrite ?lowerChar_upperChar; reflexivity.
Qed.

(** X1: the reply does not depend on the case of the letters typed: two
    messages that differ only in the case of their letters (at each
    position the same code unit, or a small letter and its capital) get the
    same reply; so "HeLLo" is greeted as "hello" is. *)
Theorem X1_reply_ignores_case (a b : string) :
  sameUpToCase a b = true ->
  generateBotResponse a = generateBotResponse b.
Proof.
  intros H. unfold generateBotResponse.
  rewrite (sameUpToCase_toLowerCase a b H). reflexivity.
Qed.

Lemma X1_reply_ignores_case_witness :
  generateBotResponse "My PENSION Scheme" = schemeReply
  /\ generateBotResponse "HeLLo" = greetingReply.
Proof.
  split.
  - rewrite (X1_reply_ignores_case "My PENSION Scheme" "my pension scheme");
      vm_compute; reflexivity.
  - rewrite (X1_reply_ignores_case "HeLLo" "hello"); vm_compute; reflexivity.
Defined.

(** X2: the fallback reply is given exactly when none of the seven keywords
    occurs in the lower-cased message. *)
Theorem X2_fallback_iff_no_keyword (userInput : string) :
  generateBotResponse userInput = fallbackReply
  <-> Forall (fun k => includes (toLowerCase userInput) k = false) keywords.
Proof.
  unfold generateBotResponse, keywords. split.
  - intros H.
    destruct (includes (toLowerCase userInput) "hello") eqn:H1;
      destruct (includes (toLowerCase userInput) "hi") eqn:H2;
      cbn [orb] in H; try discriminate H.
    destruct (includes (toLowerCase userInput) "scheme") eqn:H3;
      destruct (includes (toLowerCase userInput) "pension") eqn:H4;
      cbn [orb] in H; try discriminate H.
    destruct (includes (toLowerCase userInput) "help") eqn:H5;
      destruct (includes (toLowerCase userInput) "support") eqn:H6;
      cbn [orb] in H; try discriminate H.
    destruct (includes (toLowerCase userInput) "thank") eqn:H7; try discriminate H.
    repeat constructor; assumption.
  - rewrite !Forall_cons. intros (H1 & H2 & H3 & H4 & H5 & H6 & H7 & _).
    rewrite H1, H2, H3, H4, H5, H6, H7. reflexivity.
Qed.

(** X3: the rules have priority in their order: the scheme reply is given
    exactly when neither "hello" nor "hi" occurs and "scheme" or "pension"
    does, whatever else (help, support, thank) the message holds. *)
Theorem X3_scheme_reply_iff (userInput : string) :
  generateBotResponse userInput = schemeReply
  <-> includes (toLowerCase userInput) "hello" = false
      /\ includes (toLowerCase userInput) "hi" = false
      /\ (includes (toLowerCase userInput) "scheme" = true
          \/ includes (toLowerCase userInput) "pension" = true).
Proof.
  unfold generateBotResponse. split.
  - intros H.
    destruct (includes (toLowerCase userInput) "hello");
      destruct (includes (toLowerCase userInput) "hi");
      cbn [orb] in H; try discriminate H.
    destruct (includes (toLowerCase userInput) "scheme"); [auto|].
    destruct (includes (toLowerCase userInput) "pension"); [auto|].
    cbn [orb] in H.
    destruct (includes (toLowerCase userInput) "help" || includes (toLowerCase userInput) "support");
      [discriminate H|].
    destruct (includes (toLowerCase userInput) "thank"); discriminate H.
  - intros (-> & -> & [-> | ->]); cbn [orb]; [reflexivity|].
    rewrite orb_true_r. reflexivity.
Qed.

(** ** More on the Services Hub *)

(** Every run of [searchResources], by the elements the page has. *)
Lemma searchResources_run (w : World) :
  searchResources w =
    match document w !! "domain", document w !! "location" with
    | Some d, Some l =>
        match document w !! "planResult" with
        | Some r =>
            if incomplete d l
            then (withDocument (insert "planResult" (showError r)) w, Normal tt)
            else (mkWorld
                    (<["planResult" := showHeader (value d) (trim (value l)) r]>
                       (document w))
                    (listeners w) (timers w) (alerts w)
                    (scrolledIntoView w ++ ["planResult"]), Normal tt)
        | None => (w, Normal tt)
        end
    | _, _ => (w, Throw TypeError)
    end.
Proof.
  destruct (document w !! "domain") as [d|] eqn:Hd;
    [destruct (document w !! "location") as [l|] eqn:Hl|].
  - destruct (document w !! "planResult") as [r|] eqn:Hr.
    + unfold incomplete.
      destruct (truthy (value d)) eqn:Hdom; [destruct (truthy (trim (value l))) eqn:Hloc|].
      * apply (searchResources_complete w d l r); auto;
          apply truthy_true_iff; assumption.
      * apply (searchResources_incomplete w d l r); auto.
        right. apply truthy_false_iff, Hloc.
      * apply (searchResources_incomplete w d l r); auto.
        left. apply truthy_false_iff, Hdom.
    + apply (searchResources_without_result w d l); assumption.
  - apply searchResources_without_field. auto.
  - apply searchResources_without_field. auto.
Qed.

(** X4: with the two fields and the result region on the page, the error
    card is what the result region holds after a search exactly when the
    domain is empty or the location is empty or white space only; in every
    other case it holds the header. *)
Theorem X4_error_card_iff (w : World) (d l r : Element) :
  document w !! "domain" = Some d ->
  document w !! "location" = Some l ->
  document w !! "planResult" = Some r ->
  (document (fst (searchResources w)) !! "planResult" = Some (showError r)
   <-> value d = "" \/ whitespaceOnly (value l) = true)
  /\ (document (fst (searchResources w)) !! "planResult"
        = Some (showHeader (value d) (trim (value l)) r)
      <-> value d <> "" /\ whitespaceOnly (value l) = false).
Proof.
  intros Hd Hl Hr.
  assert (showHeader (value d) (trim (value l)) r <> showError r) as Hne.
  { unfold showHeader, showError. intros H.
    assert (errorCard = resultHeader ("Displaying mock results for " ++ value d
                                      ++ " in " ++ trim (value l))) by congruence.
    eapply errorCard_not_header; eassumption. }
  assert (incomplete d l = true <-> value d = "" \/ whitespaceOnly (value l) = true) as Hinc.
  { unfold incomplete. rewrite orb_true_iff, !negb_true_iff, !truthy_false_iff.
    rewrite trim_empty_iff. reflexivity. }
  rewrite searchResources_run, Hd, Hl, Hr.
  destruct (incomplete d l) eqn:E; cbn [fst document withDocument];
    rewrite lookup_insert_eq.
  - split.
    + split; [intros _; apply Hinc; reflexivity | reflexivity].
    + split.
      * intros H. destruct Hne. congruence.
      * intros [Hdom Hloc]. destruct (proj1 Hinc eq_refl); congruence.
  - assert (~ (value d = "" \/ whitespaceOnly (value l) = true)) as Hnot
      by (intros H; apply Hinc in H; discriminate).
    split.
    + split; [intros H; destruct Hne; congruence | intros H; destruct (Hnot H)].
    + split; [|reflexivity]. intros _. split.
      * intros H. apply Hnot. auto.
      * destruct (whitespaceOnly (value l)); [destruct Hnot; auto | reflexivity].
Qed.

Lemma X4_error_card_iff_witness :
  document (fst (searchResources
                   (withDocument (insert "location" (setValue "Austin" blank)) fullPage)))
    !! "planResult" = Some (showError blank).
Proof.
  destruct (X4_error_card_iff
              (withDocument (insert "location" (setValue "Austin" blank)) fullPage)
              blank (setValue "Austin" blank) blank) as [[_ Herr] _];
    [vm_compute; reflexivity | vm_compute; reflexivity | vm_compute; reflexivity |].
  apply Herr. left. reflexivity.
Defined.

(** X5: [searchResources] throws exactly when the domain or the location
    field is not on the page, and then it has changed nothing.  In every run
    the listeners, the timers and the alerts are left as they were and no
    element but the result region is written. *)
Theorem X5_searchResources_frame (w : World) :
  (snd (searchResources w) = Throw TypeError
   <-> document w !! "domain" = None \/ document w !! "location" = None)
  /\ (snd (searchResources w) = Throw TypeError -> fst (searchResources w) = w)
  /\ listeners (fst (searchResources w)) = listeners w
  /\ timers (fst (searchResources w)) = timers w
  /\ alerts (fst (searchResources w)) = alerts w
  /\ forall id, id <> "planResult" ->
       document (fst (searchResources w)) !! id = document w !! id.
Proof.
  rewrite searchResources_run.
  destruct (document w !! "domain") as [d|] eqn:Hd;
    [destruct (document w !! "location") as [l|] eqn:Hl|].
  2,3: repeat split; auto.
  destruct (document w !! "planResult") as [r|] eqn:Hr;
    [destruct (incomplete d l)|]; cbn [fst snd];
    (split; [split; [discriminate | intros [H|H]; discriminate H]|]);
    (split; [discriminate|]); repeat split;
    intros id Hid; cbn [document withDocument];
    rewrite lookup_insert_ne by congruence; reflexivity.
Qed.

(** X6: a search replaces the result of the search before it: a second run
    on unchanged fields leaves the document as the first run left it. *)
Theorem X6_searchResources_idempotent (w : World) :
  document (fst (searchResources (fst (searchResources w))))
  = document (fst (searchResources w)).
Proof.
  rewrite (searchResources_run w).
  destruct (document w !! "domain") as [d|] eqn:Hd;
    [destruct (document w !! "location") as [l|] eqn:Hl|].
  2,3: cbn [fst]; rewrite searchResources_run, Hd, ?Hl; reflexivity.
  destruct (document w !! "planResult") as [r|] eqn:Hr.
  2: cbn [fst]; rewrite searchResources_run, Hd, Hl, Hr; reflexivity.
  destruct (incomplete d l) eqn:E; cbn [fst]; rewrite searchResources_run;
    cbn [document withDocument];
    rewrite !lookup_insert_ne by discriminate; rewrite Hd, Hl, lookup_insert_eq, E;
    cbn [fst document withDocument]; rewrite insert_insert_eq; reflexivity.
Qed.

(** ** More on the Video Guide *)

(** X7: a non-empty query given by the caller is the search term as it is:
    it is not trimmed and the search field is not consulted.  The content of
    the video container becomes the one paragraph "Showing mock video
    results for" with the query between double quotes; the rest of the
    container, every other element and the alerts are as they were. *)
Theorem X7_explicit_query_wins (w : World) (q : string) (c : Element) :
  q <> "" ->
  document w !! "videoContainer" = Some c ->
  snd (searchVideos (Some q) w) = Normal tt
  /\ (exists c',
        document (fst (searchVideos (Some q) w)) !! "videoContainer" = Some c'
        /\ childNodes c'
           = [Markup ("<p style=" ++ dq ++ "text-align:center; padding: 20px;" ++ dq
                      ++ ">Showing mock video results for " ++ dq ++ q ++ dq
                      ++ "...</p>")]
        /\ value c' = value c
        /\ display c' = display c
        /\ scrollTop c' = scrollTop c)
  /\ (forall id, id <> "videoContainer" ->
        document (fst (searchVideos (Some q) w)) !! id = document w !! id)
  /\ alerts (fst (searchVideos (Some q) w)) = alerts w.
Proof.
  intros Hq Hc. rewrite searchVideos_run. unfold effectiveTerm.
  apply truthy_true_iff in Hq. rewrite Hq. cbv iota. rewrite Hq, Hc.
  cbn [fst snd]. split; [reflexivity|]. split; [|split; [|reflexivity]].
  - exists (setInnerHTML (videoPlaceholder q) c).
    rewrite document_withDocument, lookup_insert_eq. repeat split.
  - intros id Hid. rewrite document_withDocument.
    apply lookup_insert_ne. congruence.
Qed.

Lemma X7_explicit_query_wins_witness :
  exists c',
    document (fst (searchVideos (Some "  ")
                     (withDocument (insert "searchInput" (setValue "yoga" blank)) fullPage)))
      !! "videoContainer" = Some c'
    /\ childNodes c'
       = [Markup ("<p style=" ++ dq ++ "text-align:center; padding: 20px;" ++ dq
                  ++ ">Showing mock video results for " ++ dq ++ "  " ++ dq ++ "...</p>")].
Proof.
  destruct (X7_explicit_query_wins
              (withDocument (insert "searchInput" (setValue "yoga" blank)) fullPage)
              "  " blank) as (_ & (c' & Hc' & Hmarkup & _) & _);
    [discriminate | vm_compute; reflexivity |].
  exists c'. split; [exact Hc' | exact Hmarkup].
Defined.

(** X8: without a query, or with the empty string as query, the search term
    is the trimmed value of the search field.  When that is not empty, the
    content of the video container becomes the one paragraph "Showing mock
    video results for" with the trimmed value between double quotes; the
    rest of the container, every other element and the alerts are as they
    were (no alert is shown). *)
Theorem X8_field_value_is_trimmed (w : World) (query : option string) (e c : Element) :
  query = None \/ query = Some "" ->
  document w !! "searchInput" = Some e ->
  document w !! "videoContainer" = Some c ->
  trim (value e) <> "" ->
  snd (searchVideos query w) = Normal tt
  /\ (exists c',
        document (fst (searchVideos query w)) !! "videoContainer" = Some c'
        /\ childNodes c'
           = [Markup ("<p style=" ++ dq ++ "text-align:center; padding: 20px;" ++ dq
                      ++ ">Showing mock video results for " ++ dq ++ trim (value e) ++ dq
                      ++ "...</p>")]
        /\ value c' = value c
        /\ display c' = display c
        /\ scrollTop c' = scrollTop c)
  /\ (forall id, id <> "videoContainer" ->
        document (fst (searchVideos query w)) !! id = document w !! id)
  /\ alerts (fst (searchVideos query w)) = alerts w.
Proof.
  intros Hq He Hc Hterm.
  assert (effectiveTerm query w = trim (value e)) as Heff.
  { unfold effectiveTerm, fieldTerm. rewrite He.
    destruct Hq as [-> | ->]; reflexivity. }
  rewrite searchVideos_run, Heff, Hc.
  apply truthy_true_iff in Hterm. rewrite Hterm.
  cbn [fst snd]. split; [reflexivity|]. split; [|split; [|reflexivity]].
  - exists (setInnerHTML (videoPlaceholder (trim (value e))) c).
    rewrite document_withDocument, lookup_insert_eq. repeat split.
  - intros id Hid. rewrite document_withDocument.
    apply lookup_insert_ne. congruence.
Qed.

Lemma X8_field_value_is_trimmed_witness :
  exists c',
    document (fst (searchVideos None
                     (withDocument (insert "searchInput" (setValue "  yoga " blank)) fullPage)))
      !! "videoContainer" = Some c'
    /\ childNodes c'
       = [Markup ("<p style=" ++ dq ++ "text-align:center; padding: 20px;" ++ dq
                  ++ ">Showing mock video results for " ++ dq ++ "yoga" ++ dq ++ "...</p>")].
Proof.
  destruct (X8_field_value_is_trimmed
              (withDocument (insert "searchInput" (setValue "  yoga " blank)) fullPage)
              None (setValue "  yoga " blank) blank) as (_ & (c' & Hc' & Hmarkup & _) & _);
    [ left; reflexivity | vm_compute; reflexivity | vm_compute; reflexivity
    | vm_compute; discriminate | ].
  exists c'. split; [exact Hc' | exact Hmarkup].
Defined.

(** X9: [searchVideos] never throws, whatever the page lacks.  It leaves the
    listeners and the timers as they were and writes no element but the
    video container; and it either shows its one alert and leaves the whole
    document as it was, or shows no alert. *)
Theorem X9_searchVideos_frame (query : option string) (w : World) :
  snd (searchVideos query w) = Normal tt
  /\ listeners (fst (searchVideos query w)) = listeners w
  /\ timers (fst (searchVideos query w)) = timers w
  /\ scrolledIntoView (fst (searchVideos query w)) = scrolledIntoView w
  /\ (forall id, id <> "videoContainer" ->
        document (fst (searchVideos query w)) !! id = document w !! id)
  /\ ((alerts (fst (searchVideos query w))
        = (alerts w ++ ["Please enter a search topic."])%list
       /\ document (fst (searchVideos query w)) = document w)
      \/ alerts (fst (searchVideos query w)) = alerts w).
Proof.
  rewrite searchVideos_run.
  destruct (truthy (effectiveTerm query w));
    [destruct (document w !! "videoContainer") as [c|]|];
    cbn [fst snd]; repeat split; auto;
    intros id Hid; cbn [document withDocument];
    rewrite lookup_insert_ne by congruence; reflexivity.
Qed.

(** ** More on the chatbot *)

(** X10: the load callback never throws, whatever the page lacks, and it
    changes nothing but the list of listeners: with the open button, the
    container, the close button and the form all on the page it registers
    its three listeners, and without one of them it registers none. *)
Theorem X10_load_callback_is_safe (w : World) :
  snd (onDOMContentLoaded w) = Normal tt
  /\ document (fst (onDOMContentLoaded w)) = document w
  /\ timers (fst (onDOMContentLoaded w)) = timers w
  /\ alerts (fst (onDOMContentLoaded w)) = alerts w
  /\ (is_Some (document w !! "open-chatbot-btn")
      /\ is_Some (document w !! "chatbot-container")
      /\ is_Some (document w !! "close-chatbot-btn")
      /\ is_Some (document w !! "chat-form") ->
      listeners (fst (onDOMContentLoaded w))
      = (listeners w ++ chatbotListeners (captured w))%list)
  /\ (document w !! "open-chatbot-btn" = None
      \/ document w !! "chatbot-container" = None
      \/ document w !! "close-chatbot-btn" = None
      \/ document w !! "chat-form" = None ->
      listeners (fst (onDOMContentLoaded w)) = listeners w).
Proof.
  rewrite onDOMContentLoaded_run. unfold chatbotMarkupPresent, refOf.
  destruct (document w !! "open-chatbot-btn") as [b1|] eqn:H1,
           (document w !! "chatbot-container") as [c|] eqn:H2,
           (document w !! "close-chatbot-btn") as [b2|] eqn:H3,
           (document w !! "chat-form") as [f|] eqn:H4;
    cbn [isElement andb fst snd document timers alerts listeners];
    repeat split; auto;
    try (intros (Ha & Hb & Hc & Hd);
         first [destruct Ha as [? Ha]; discriminate Ha
               | destruct Hb as [? Hb]; discriminate Hb
               | destruct Hc as [? Hc]; discriminate Hc
               | destruct Hd as [? Hd]; discriminate Hd]).
  intros [H|[H|[H|H]]]; discriminate H.
Qed.

Lemma X10_load_callback_is_safe_witness :
  listeners (fst (onDOMContentLoaded fullPage)) = chatbotListeners widgetEnv
  /\ listeners (fst (onDOMContentLoaded fieldOnlyPage)) = [].
Proof.
  destruct (X10_load_callback_is_safe fullPage) as (_ & _ & _ & _ & Hfull & _).
  destruct (X10_load_callback_is_safe fieldOnlyPage) as (_ & _ & _ & _ & _ & Hnone).
  split.
  - rewrite Hfull; [reflexivity|]. vm_compute. eauto 10.
  - rewrite Hnone; [reflexivity|]. left. reflexivity.
Defined.

(** The load callback wires a page that has the whole widget. *)
Lemma load_wires scrollHeight (w : World) :
  listeners w = [] ->
  is_Some (document w !! "open-chatbot-btn") ->
  is_Some (document w !! "chatbot-container") ->
  is_Some (document w !! "close-chatbot-btn") ->
  is_Some (document w !! "chat-form") ->
  is_Some (document w !! "chat-input-field") ->
  is_Some (document w !! "chat-body") ->
  Wired (exec scrollHeight DOMContentLoaded w).
Proof.
  intros Hl [b1 H1] [c H2] [b2 H3] [f H4] [i H5] [t H6].
  unfold exec, perform. rewrite onDOMContentLoaded_run.
  unfold chatbotMarkupPresent, captured, refOf. rewrite H1, H2, H3, H4, H5, H6.
  cbn [isElement andb fst]. unfold Wired. cbn [listeners document].
  rewrite Hl, H1, H2, H3, H4, H5, H6. repeat split; eauto.
Qed.

Lemma is_Some_insert (d : gmap string Element) (i j : string) (x : Element) :
  is_Some (d !! j) -> is_Some (<[i := x]> d !! j).
Proof. intros H. apply lookup_insert_is_Some'. auto. Qed.

Lemma transcript_body (w : World) (b : Element) :
  document w !! "chat-body" = Some b -> transcript w = childNodes b.
Proof. intros H. unfold transcript. rewrite H. reflexivity. Qed.

(** A submission with text on a wired page. *)
Lemma Wired_submit scrollHeight (w : World) (e : Element) :
  Wired w ->
  document w !! "chat-input-field" = Some e ->
  trim (value e) <> "" ->
  Wired (exec scrollHeight (UserEvent "chat-form" submit) w)
  /\ transcript (exec scrollHeight (UserEvent "chat-form" submit) w)
     = (transcript w ++ [entry "user" (trim (value e))])%list
  /\ timers (exec scrollHeight (UserEvent "chat-form" submit) w)
     = (timers w ++ [replyTimer (value e)])%list
  /\ document (exec scrollHeight (UserEvent "chat-form" submit) w) !! "chat-input-field"
     = Some (setValue "" e)
  /\ forall id, id <> "chat-input-field" -> id <> "chat-body" ->
       document (exec scrollHeight (UserEvent "chat-form" submit) w) !! id
       = document w !! id.
Proof.
  intros (Hl & H1 & H2 & H3 & H4 & H5 & [b H6]) He Htext.
  unfold exec.
  rewrite (submit_event_runs_handler scrollHeight widgetEnv w Hl H4).
  rewrite (submission_with_text scrollHeight widgetEnv w e b) by auto.
  cbn [fst]. split; [|split; [|split; [|split]]].
  - unfold Wired. cbn [listeners document].
    repeat split; try assumption; repeat apply is_Some_insert; eauto.
  - unfold transcript at 1. cbn [document].
    rewrite lookup_insert_ne by discriminate. rewrite lookup_insert_eq.
    rewrite (transcript_body w b H6). reflexivity.
  - reflexivity.
  - cbn [document]. apply lookup_insert_eq.
  - intros id Hf Hb. cbn [document].
    rewrite !lookup_insert_ne by congruence. reflexivity.
Qed.

(** The user edits a form control of a wired page. *)
Lemma Wired_edit scrollHeight (w : World) (id text : string) :
  Wired w ->
  Wired (exec scrollHeight (UserEdits id text) w)
  /\ transcript (exec scrollHeight (UserEdits id text) w) = transcript w
  /\ timers (exec scrollHeight (UserEdits id text) w) = timers w.
Proof.
  intros (Hl & H1 & H2 & H3 & H4 & H5 & H6).
  unfold exec, perform.
  destruct (document w !! id) as [e|] eqn:He; cbn [fst].
  - split; [|split; [|reflexivity]].
    + unfold Wired. cbn [listeners document withDocument].
      repeat split; try assumption; apply is_Some_insert; assumption.
    + unfold transcript. rewrite document_withDocument.
      destruct (decide (id = "chat-body")) as [->|Hne].
      * rewrite lookup_insert_eq, He. reflexivity.
      * rewrite lookup_insert_ne by assumption. reflexivity.
  - unfold Wired. auto 10.
Qed.

Lemma Wired_edit_field scrollHeight (w : World) (text : string) :
  Wired w ->
  exists e,
    document (exec scrollHeight (UserEdits "chat-input-field" text) w) !! "chat-input-field"
    = Some e /\ value e = text.
Proof.
  intros (Hl & H1 & H2 & H3 & H4 & [e He] & H6).
  unfold exec, perform. rewrite He. cbn [fst]. rewrite document_withDocument.
  exists (setValue text e). split; [apply lookup_insert_eq | reflexivity].
Qed.

(** The oldest pending reply elapses on a wired page. *)
Lemma Wired_timer scrollHeight (w : World) (m : string) (ms : N) (ts : list Timer) :
  Wired w ->
  timers w = mkTimer (BotReply widgetEnv m) ms :: ts ->
  Wired (exec scrollHeight TimerElapses w)
  /\ transcript (exec scrollHeight TimerElapses w)
     = (transcript w ++ [entry "bot" (generateBotResponse m)])%list
  /\ timers (exec scrollHeight TimerElapses w) = ts
  /\ forall id, id <> "chat-body" ->
       document (exec scrollHeight TimerElapses w) !! id = document w !! id.
Proof.
  intros (Hl & H1 & H2 & H3 & H4 & H5 & [b H6]) Ht.
  unfold exec, perform. rewrite Ht. cbn [task runTimerTask].
  rewrite (addMessageToChat_present scrollHeight widgetEnv "bot" (generateBotResponse m)
             _ "chat-body" b) by (first [reflexivity | exact H6]).
  cbn [fst]. split; [|split; [|split]].
  - unfold Wired. cbn [listeners document withDocument].
    repeat split; try assumption; apply is_Some_insert; eauto.
  - unfold transcript at 1. cbn [document withDocument].
    rewrite lookup_insert_eq, (transcript_body w b H6). reflexivity.
  - reflexivity.
  - intros id Hid. cbn [document withDocument].
    rewrite lookup_insert_ne by congruence. reflexivity.
Qed.

Lemma execAll_app scrollHeight (a b : list Action) (w : World) :
  execAll scrollHeight (a ++ b) w = execAll scrollHeight b (execAll scrollHeight a w).
Proof. unfold execAll. apply fold_left_app. Qed.

Lemma execAll_cons scrollHeight (a : Action) (acts : list Action) (w : World) :
  execAll scrollHeight (a :: acts) w = execAll scrollHeight acts (exec scrollHeight a w).
Proof. reflexivity. Qed.

(** X11: on a wired page with no reply pending, submitting a message with
    text appends the user's entry with the trimmed text at once and leaves
    the message field with the empty string as value; when the timer
    elapses, the bot's entry with the reply to that text follows it and no
    timer is left. *)
Theorem X11_message_then_reply scrollHeight (w : World) (e : Element) :
  Wired w ->
  timers w = [] ->
  document w !! "chat-input-field" = Some e ->
  trim (value e) <> "" ->
  let w1 := exec scrollHeight (UserEvent "chat-form" submit) w in
  let w2 := exec scrollHeight TimerElapses w1 in
  transcript w1
  = (transcript w
     ++ [Div "chat-message user-message" ("<p>" ++ trim (value e) ++ "</p>")])%list
  /\ (exists e', document w1 !! "chat-input-field" = Some e' /\ value e' = "")
  /\ timers w1 = [mkTimer (BotReply widgetEnv (trim (value e))) 1000]
  /\ transcript w2
     = (transcript w
        ++ [Div "chat-message user-message" ("<p>" ++ trim (value e) ++ "</p>");
            Div "chat-message bot-message"
              ("<p>" ++ generateBotResponse (trim (value e)) ++ "</p>")])%list
  /\ (exists e', document w2 !! "chat-input-field" = Some e' /\ value e' = "")
  /\ timers w2 = [].
Proof.
  intros Hw Ht He Htext w1 w2.
  destruct (Wired_submit scrollHeight w e Hw He Htext)
    as (Hw1 & Htr1 & Ht1 & Hf1 & _).
  fold w1 in Hw1, Htr1, Ht1, Hf1. rewrite Ht in Ht1. cbn [app] in Ht1.
  destruct (Wired_timer scrollHeight w1 (trim (value e)) 1000 [] Hw1 Ht1)
    as (_ & Htr2 & Ht2 & Hframe).
  fold w2 in Htr2, Ht2, Hframe.
  split; [exact Htr1|]. split; [exists (setValue "" e); split; [exact Hf1 | reflexivity]|].
  split; [exact Ht1|]. split; [|split; [|exact Ht2]].
  - rewrite Htr2, Htr1, <- app_assoc. reflexivity.
  - exists (setValue "" e). split; [|reflexivity].
    rewrite Hframe by discriminate. exact Hf1.
Qed.

Lemma X11_message_then_reply_witness :
  let w := mkWorld (<["chat-input-field" := mkElement " hello " "" [] 0]> (document fullPage))
             (chatbotListeners widgetEnv) [] [] [] in
  transcript (exec rowLayout TimerElapses
                (exec rowLayout (UserEvent "chat-form" submit) w))
  = [Div "chat-message user-message" "<p>hello</p>";
     Div "chat-message bot-message" "<p>Hello there! How can I assist you today?</p>"]
  /\ exists e',
       document (exec rowLayout (UserEvent "chat-form" submit) w) !! "chat-input-field"
       = Some e' /\ value e' = "".
Proof.
  intros w.
  assert (Wired w) as Hw by (unfold Wired; repeat split; vm_compute; eauto).
  assert (document w !! "chat-input-field" = Some (mkElement " hello " "" [] 0)) as He
    by (vm_compute; reflexivity).
  assert (trim (value (mkElement " hello " "" [] 0)) <> "") as Htext
    by (vm_compute; discriminate).
  pose proof (X11_message_then_reply rowLayout w _ Hw eq_refl He Htext) as H.
  cbv zeta in H. destruct H as (_ & Hfield & _ & Htr & _).
  split; [rewrite Htr; reflexivity | exact Hfield].
Defined.

Lemma Wired_sendAll scrollHeight (messages : list string) :
  forall w,
    Wired w ->
    Forall (fun m => trim m <> "") messages ->
    Wired (execAll scrollHeight (sendAll messages) w)
    /\ transcript (execAll scrollHeight (sendAll messages) w)
       = (transcript w ++ map (fun m => entry "user" (trim m)) messages)%list
    /\ timers (execAll scrollHeight (sendAll messages) w)
       = (timers w ++ map replyTimer messages)%list.
Proof.
  induction messages as [|m messages IH]; intros w Hw Hall.
  - cbn [sendAll flat_map map]. unfold execAll. cbn [fold_left].
    rewrite !app_nil_r. auto.
  - apply Forall_cons in Hall as [Hm Hall].
    change (sendAll (m :: messages))
      with (UserEdits "chat-input-field" m
              :: UserEvent "chat-form" submit :: sendAll messages).
    rewrite !execAll_cons.
    destruct (Wired_edit scrollHeight w "chat-input-field" m Hw) as (Hw1 & Htr1 & Ht1).
    destruct (Wired_edit_field scrollHeight w m Hw) as (e & He & Hv).
    set (w1 := exec scrollHeight (UserEdits "chat-input-field" m) w) in *.
    assert (trim (value e) <> "") as Htext by (rewrite Hv; exact Hm).
    destruct (Wired_submit scrollHeight w1 e Hw1 He Htext) as (Hw2 & Htr2 & Ht2 & _).
    set (w2 := exec scrollHeight (UserEvent "chat-form" submit) w1) in *.
    destruct (IH w2 Hw2 Hall) as (Hw3 & Htr3 & Ht3).
    split; [exact Hw3|]. split.
    + rewrite Htr3, Htr2, Htr1, Hv, <- app_assoc. reflexivity.
    + rewrite Ht3, Ht2, Ht1, Hv, <- app_assoc. reflexivity.
Qed.

Lemma Wired_replies scrollHeight (messages : list string) :
  forall w rest,
    Wired w ->
    timers w = (map replyTimer messages ++ rest)%list ->
    Wired (execAll scrollHeight (replicate (length messages) TimerElapses) w)
    /\ transcript (execAll scrollHeight (replicate (length messages) TimerElapses) w)
       = (transcript w
          ++ map (fun m => entry "bot" (generateBotResponse (trim m))) messages)%list
    /\ timers (execAll scrollHeight (replicate (length messages) TimerElapses) w) = rest.
Proof.
  induction messages as [|m messages IH]; intros w rest Hw Ht.
  - cbn [length replicate map]. unfold execAll. cbn [fold_left].
    rewrite app_nil_r. auto.
  - cbn [length replicate map]. rewrite execAll_cons.
    cbn [map app] in Ht. unfold replyTimer at 1 in Ht.
    destruct (Wired_timer scrollHeight w (trim m) 1000 _ Hw Ht) as (Hw1 & Htr1 & Ht1 & _).
    destruct (IH _ rest Hw1 Ht1) as (Hw2 & Htr2 & Ht2).
    split; [exact Hw2|]. split; [|exact Ht2].
    rewrite Htr2, Htr1, <- app_assoc. reflexivity.
Qed.

(** X12: replies come in the order of the submissions.  On a wired page
    with no reply pending, when the user sends several messages with text
    one after the other and the timers then elapse, the transcript gains the
    user's entries in the order sent, followed by the bot's replies to them
    in the same order; each reply answers the text captured at its
    submission, not what the field holds later. *)
Theorem X12_replies_in_submission_order scrollHeight (w : World) (messages : list string) :
  Wired w ->
  timers w = [] ->
  Forall (fun m => trim m <> "") messages ->
  let w' := execAll scrollHeight
              (sendAll messages ++ replicate (length messages) TimerElapses) w in
  transcript w'
  = (transcript w
     ++ map (fun m => entry "user" (trim m)) messages
     ++ map (fun m => entry "bot" (generateBotResponse (trim m))) messages)%list
  /\ timers w' = [].
Proof.
  intros Hw Ht Hall w'. subst w'. rewrite execAll_app.
  destruct (Wired_sendAll scrollHeight messages w Hw Hall) as (Hw1 & Htr1 & Ht1).
  rewrite Ht in Ht1. cbn [app] in Ht1.
  rewrite <- (app_nil_r (map replyTimer messages)) in Ht1.
  destruct (Wired_replies scrollHeight messages _ [] Hw1 Ht1) as (_ & Htr2 & Ht2).
  split; [|exact Ht2].
  rewrite Htr2, Htr1, <- app_assoc. reflexivity.
Qed.

Lemma X12_replies_in_submission_order_witness :
  transcript
    (execAll rowLayout
       (sendAll ["Hello"; " pension? "; "thanks"] ++ replicate 3 TimerElapses) wiredPage)
  = [ entry "user" "Hello"; entry "user" "pension?"; entry "user" "thanks";
      entry "bot" greetingReply; entry "bot" schemeReply; entry "bot" thankReply ].
Proof.
  assert (Wired wiredPage) as Hw by (unfold Wired; repeat split; vm_compute; eauto).
  assert (Forall (fun m => trim m <> "") ["Hello"; " pension? "; "thanks"]) as Hall
    by (repeat constructor; vm_compute; discriminate).
  pose proof (X12_replies_in_submission_order rowLayout wiredPage _ Hw eq_refl Hall) as H.
  cbv zeta in H. destruct H as [Htr _]. exact Htr.
Defined.

(** X13: closing the chatbot does not cancel a pending reply.  On a wired
    page whose oldest timer is the reply to a message, a click on the close
    button followed by that timer elapsing leaves the container closed and
    appends the bot's entry to the transcript all the same. *)
Theorem X13_close_keeps_pending_reply scrollHeight (w : World) (m : string) (ms : N)
    (ts : list Timer) :
  Wired w ->
  timers w = mkTimer (BotReply widgetEnv m) ms :: ts ->
  let w' := execAll scrollHeight [toggleAction Close; TimerElapses] w in
  transcript w' = (transcript w ++ [entry "bot" (generateBotResponse m)])%list
  /\ timers w' = ts
  /\ exists c, document w' !! "chatbot-container" = Some c /\ display c = "none".
Proof.
  intros Hw Ht w'. subst w'. rewrite !execAll_cons.
  destruct Hw as (Hl & H1 & [c H2] & H3 & H4 & H5 & H6).
  rewrite (toggle_step scrollHeight w widgetEnv "chatbot-container" c Close)
    by (first [assumption | reflexivity]).
  set (w1 := withDocument (insert "chatbot-container" (setDisplay (displayAfter Close) c)) w).
  assert (Wired w1) as Hw1.
  { unfold Wired, w1. cbn [listeners document withDocument].
    repeat split; try assumption; apply is_Some_insert; eauto. }
  assert (timers w1 = mkTimer (BotReply widgetEnv m) ms :: ts) as Ht1 by exact Ht.
  destruct (Wired_timer scrollHeight w1 m ms ts Hw1 Ht1) as (_ & Htr & Hts & Hframe).
  unfold execAll. cbn [fold_left].
  split; [|split; [exact Hts|]].
  - rewrite Htr. unfold w1. rewrite (transcript_setDisplay w _ _ c H2). reflexivity.
  - exists (setDisplay "none" c). split; [|reflexivity].
    rewrite Hframe by discriminate. unfold w1. rewrite document_withDocument.
    apply lookup_insert_eq.
Qed.

Lemma X13_close_keeps_pending_reply_witness :
  let w := mkWorld (document fullPage) (chatbotListeners widgetEnv)
             [mkTimer (BotReply widgetEnv "hello") 1000] [] [] in
  transcript (execAll rowLayout [toggleAction Close; TimerElapses] w)
  = [entry "bot" greetingReply].
Proof.
  intros w.
  assert (Wired w) as Hw by (unfold Wired; repeat split; vm_compute; eauto).
  pose proof (X13_close_keeps_pending_reply rowLayout w "hello" 1000 [] Hw eq_refl) as H.
  cbv zeta in H. destruct H as (Htr & _ & _). rewrite Htr. reflexivity.
Defined.

(** X14: the guard of the load callback does not cover the message field.
    On a page that has the open button, the container, the close button and
    the form but no message field, the callback registers its listeners, and
    a submission of the form then throws a [TypeError] and changes nothing. *)
Theorem X14_submit_without_field_throws scrollHeight (w : World) :
  listeners w = [] ->
  is_Some (document w !! "open-chatbot-btn") ->
  is_Some (document w !! "chatbot-container") ->
  is_Some (document w !! "close-chatbot-btn") ->
  is_Some (document w !! "chat-form") ->
  document w !! "chat-input-field" = None ->
  let w1 := exec scrollHeight DOMContentLoaded w in
  listeners w1 = chatbotListeners (captured w)
  /\ perform scrollHeight (UserEvent "chat-form" submit) w1 = (w1, Throw TypeError).
Proof.
  intros Hl [b1 H1] [c H2] [b2 H3] [f H4] H5 w1.
  assert (w1 = mkWorld (document w) (chatbotListeners (captured w)) (timers w)
                 (alerts w) (scrolledIntoView w)) as Hw1.
  { unfold w1, exec, perform. rewrite onDOMContentLoaded_run.
    unfold chatbotMarkupPresent, refOf. rewrite H1, H2, H3, H4, Hl. reflexivity. }
  rewrite Hw1. split; [reflexivity|].
  rewrite (submit_event_runs_handler scrollHeight (captured w))
    by (first [reflexivity | cbn [document]; eauto]).
  apply chatSubmit_without_field. unfold captured, refOf. rewrite H5. reflexivity.
Qed.

Lemma X14_submit_without_field_throws_witness :
  snd (perform rowLayout (UserEvent "chat-form" submit)
         (exec rowLayout DOMContentLoaded halfWidgetPage))
  = Throw TypeError.
Proof.
  assert (forall id, In id ["open-chatbot-btn"; "chatbot-container";
                            "close-chatbot-btn"; "chat-form"] ->
                     is_Some (document halfWidgetPage !! id)) as Hpresent.
  { intros id [<-|[<-|[<-|[<-|[]]]]]; vm_compute; eauto. }
  pose proof (X14_submit_without_field_throws rowLayout halfWidgetPage eq_refl
                (Hpresent _ ltac:(simpl; auto)) (Hpresent _ ltac:(simpl; auto))
                (Hpresent _ ltac:(simpl; auto)) (Hpresent _ ltac:(simpl; auto))
                eq_refl) as H.
  cbv zeta in H. destruct H as [_ Hrun]. rewrite Hrun. reflexivity.
Defined.

(** X15: without the transcript region the chat loses messages silently.
    A submission with text appends nothing, yet leaves the message field
    with the empty string as value and schedules the reply after 1000 ms,
    everything else being as it was; when that timer elapses the callback
    returns without writing anything and without throwing. *)
Theorem X15_no_transcript_region scrollHeight (env : Chatbot) (w : World)
    (id : string) (e : Element) :
  chatInputField env = handle id ->
  chatBody env = null ->
  document w !! id = Some e ->
  trim (value e) <> "" ->
  let w1 := fst (runHandler scrollHeight (ChatSubmit env) w) in
  snd (runHandler scrollHeight (ChatSubmit env) w) = Normal tt
  /\ (exists e',
        document w1 !! id = Some e'
        /\ value e' = ""
        /\ display e' = display e
        /\ childNodes e' = childNodes e
        /\ scrollTop e' = scrollTop e)
  /\ (forall j, j <> id -> document w1 !! j = document w !! j)
  /\ transcript w1 = transcript w
  /\ timers w1 = (timers w ++ [mkTimer (BotReply env (trim (value e))) 1000])%list
  /\ runTimerTask scrollHeight (BotReply env (trim (value e))) w1 = (w1, Normal tt).
Proof.
  intros Hf Hb He Htext w1. subst w1.
  rewrite (submission_without_transcript scrollHeight env w id e) by assumption.
  cbn [fst snd document timers].
  split; [reflexivity|]. split; [|split; [|split; [|split]]].
  - exists (setValue "" e). rewrite lookup_insert_eq. repeat split.
  - intros j Hj. apply lookup_insert_ne. congruence.
  - unfold transcript. cbn [document].
    destruct (decide (id = "chat-body")) as [->|Hne].
    + rewrite lookup_insert_eq, He. reflexivity.
    + rewrite lookup_insert_ne by assumption. reflexivity.
  - reflexivity.
  - cbn [runTimerTask]. apply addMessageToChat_null, Hb.
Qed.

Lemma X15_no_transcript_region_witness :
  let w1 := fst (runHandler rowLayout (ChatSubmit (captured noTranscriptPage))
                   noTranscriptPage) in
  timers w1 = [mkTimer (BotReply (captured noTranscriptPage) "hello") 1000]
  /\ exists e', document w1 !! "chat-input-field" = Some e' /\ value e' = "".
Proof.
  intros w1.
  pose proof (X15_no_transcript_region rowLayout (captured noTranscriptPage)
                noTranscriptPage "chat-input-field" (mkElement "hello" "" [] 0)
                eq_refl eq_refl) as H.
  cbv zeta in H. destruct H as (_ & (e' & He' & Hv & _) & _ & _ & Ht & _);
    [vm_compute; reflexivity | vm_compute; discriminate |].
  subst w1. split; [rewrite Ht; reflexivity | exists e'; split; [exact He' | exact Hv]].
Defined.
